(** * Guard: routing, preconditions and validator map of guardrails/guard.py

    A shallow embedding of the [Guard] class of [guardrails/guard.py].
    Python objects become records, [None]-able values become [option] or
    the [PNone] constructor of [pyval], exceptions become the [Raise] branch
    of [result], and the mutation of [self] becomes explicit state passing
    in the monad [M].  Collaborators that live in other modules (runners,
    the API client, the validator registry) are section variables. *)

From Stdlib Require Import ZArith String List Lia Bool.
From stdpp Require Import base option list gmap strings.

Local Open Scope string_scope.
Local Open Scope Z_scope.
Local Set Warnings "-register-all".

(** ** Python values *)

(** The dynamically typed values that travel through keyword arguments:
    [None], booleans, integers, strings, lists and string-keyed dicts
    (items in insertion order). *)
Inductive pyval : Type :=
| PNone
| PBool (b : bool)
| PInt (z : Z)
| PStr (s : string)
| PList (l : list pyval)
| PDict (d : list (string * pyval)).

(** Python truthiness ([bool(v)]). *)
Definition truthy (v : pyval) : bool :=
  match v with
  | PNone => false
  | PBool b => b
  | PInt z => negb (z =? 0)
  | PStr s => negb (String.eqb s "")
  | PList l => match l with [] => false | _ => true end
  | PDict d => match d with [] => false | _ => true end
  end.

(** [a or b]: the first operand when it is truthy, else the second. *)
Definition py_or (a b : pyval) : pyval := if truthy a then a else b.

(** [v is None]. *)
Definition is_none (v : pyval) : bool :=
  match v with PNone => true | _ => false end.

(** [v is False]. *)
Definition is_false (v : pyval) : bool :=
  match v with PBool false => true | _ => false end.

(** [x == y] on values.  A boolean equals the integer 0 or 1 it stands for;
    dicts compare by key, whatever the order of their items. *)
Fixpoint pyval_eqb (x y : pyval) {struct x} : bool :=
  match x, y with
  | PNone, PNone => true
  | PBool a, PBool b => Bool.eqb a b
  | PInt a, PInt b => a =? b
  | PBool a, PInt b => (if a then 1 else 0) =? b
  | PInt a, PBool b => a =? (if b then 1 else 0)
  | PStr a, PStr b => String.eqb a b
  | PList a, PList b =>
      (fix go (a b : list pyval) {struct a} : bool :=
         match a, b with
         | [], [] => true
         | x :: a', y :: b' => pyval_eqb x y && go a' b'
         | _, _ => false
         end) a b
  | PDict a, PDict b =>
      Nat.eqb (length a) (length b) &&
      (fix go (a : list (string * pyval)) {struct a} : bool :=
         match a with
         | [] => true
         | (k, x) :: a' =>
             (fix find (b : list (string * pyval)) : bool :=
                match b with
                | [] => false
                | (k', y) :: b' =>
                    if String.eqb k k' then pyval_eqb x y else find b'
                end) b && go a'
         end) a
  | _, _ => false
  end.

(** ** Exceptions and results *)

Inductive exn : Type :=
| RuntimeError (msg : string)
| ValueError (msg : string)
| KeyError (key : string)
| UnboundLocalError (name : string)
| TypeError (msg : string)
| OtherError (msg : string).

Inductive result (A : Type) : Type :=
| Ok (a : A)
| Raise (e : exn).
Arguments Ok {A} a.
Arguments Raise {A} e.


(** ** Insertion-ordered dicts

    A Python [dict] whose order matters is a list of items with distinct
    keys: [d.get(k)], and [d[k] = v], which overwrites in place or appends
    a new item at the end. *)
Section Dict.
Context {V : Type}.

Fixpoint dict_get (d : list (string * V)) (k : string) : option V :=
  match d with
  | [] => None
  | (k', v) :: d' => if String.eqb k k' then Some v else dict_get d' k
  end.

Fixpoint dict_set (d : list (string * V)) (k : string) (v : V)
  : list (string * V) :=
  match d with
  | [] => [(k, v)]
  | (k', v') :: d' =>
      if String.eqb k k' then (k, v) :: d' else (k', v') :: dict_set d' k v
  end.

Definition dict_values (d : list (string * V)) : list V := map snd d.
End Dict.

(** [a == b] on two dicts of values. *)
Definition dict_eqb (a b : list (string * pyval)) : bool :=
  pyval_eqb (PDict a) (PDict b).

(** [sep.join(parts)]. *)
Fixpoint join (sep : string) (parts : list string) : string :=
  match parts with
  | [] => ""
  | [p] => p
  | p :: rest => p ++ sep ++ join sep rest
  end.

(** ** Data model *)

(** A generation target.  A [Function] is a plain [def] or an [async def];
    an [LlmAsk] is the adapter that [get_llm_ask] or [get_async_llm_ask]
    builds around a target and the call arguments. *)
Inductive Callable : Type :=
| Function (name : string) (coroutine : bool)
| LlmAsk (async : bool) (target : Callable)
         (args : list pyval) (kwargs : gmap string pyval).

(** [asyncio.iscoroutinefunction]: true of an [async def] only; an adapter
    instance is not a coroutine function. *)
Definition iscoroutinefunction (f : option Callable) : bool :=
  match f with
  | Some (Function _ c) => c
  | _ => false
  end.

Definition get_llm_ask (f : Callable) (args : list pyval)
  (kwargs : gmap string pyval) : Callable := LlmAsk false f args kwargs.

Definition get_async_llm_ask (f : Callable) (args : list pyval)
  (kwargs : gmap string pyval) : Callable := LlmAsk true f args kwargs.

(** The truth value of an optional callable: [None] is falsy, a function or
    an adapter is truthy. *)
Definition truthy_callable (f : option Callable) : bool :=
  match f with Some _ => true | None => false end.

(** The truth value of an [Optional[int]]. *)
Definition truthy_int (n : option Z) : bool :=
  match n with Some z => negb (z =? 0) | None => false end.

Inductive OutputTypes : Type := STRING | LIST | DICT.

Definition OutputTypes_eqb (a b : OutputTypes) : bool :=
  match a, b with
  | STRING, STRING | LIST, LIST | DICT, DICT => true
  | _, _ => false
  end.

Record Validator : Type := {
  rail_alias : string;
  on_fail_descriptor : string;
  get_args : list (string * pyval);
  required_metadata_keys : list string;
}.

Record ValidatorReference : Type := {
  ref_id : string;
  ref_on : string;
  ref_on_fail : string;
  ref_kwargs : list (string * pyval);
}.

(** What [get_validator] accepts: the string syntax of a reference, an
    instance, or a class with its constructor arguments. *)
Inductive ValidatorSpec : Type :=
| SpecString (syntax on_fail : string)
| SpecInstance (v : Validator)
| SpecClass (name : string) (args : list pyval) (kwargs : gmap string pyval).

Record GuardExecutionOptions : Type := {
  eo_prompt : pyval;
  eo_instructions : pyval;
  eo_reask_prompt : pyval;
  eo_reask_instructions : pyval;
}.

Record CallInputs : Type := {
  ci_llm_api : option Callable;
  ci_prompt : pyval;
  ci_instructions : pyval;
  ci_msg_history : pyval;
  ci_prompt_params : pyval;
  ci_num_reasks : Z;
  ci_metadata : option (gmap string pyval);
  ci_full_schema_reask : bool;
  ci_args : list pyval;
  ci_kwargs : gmap string pyval;
}.

Record FailResult : Type := {
  error_message : pyval;
  fix_value : pyval;
}.

Record FieldReAsk : Type := {
  incorrect_value : pyval;
  path : pyval;
  fail_results : list FailResult;
}.

Record Inputs : Type := {
  in_llm_api : option Callable;
  in_llm_output : pyval;
  in_instructions : pyval;
  in_prompt : pyval;
  in_prompt_params : pyval;
  in_num_reasks : Z;
  in_metadata : option (gmap string pyval);
  in_full_schema_reask : option bool;
}.

Record Outputs : Type := {
  raw_output : pyval;
  parsed_output : pyval;
  validation_output : pyval;
  reasks : list FieldReAsk;
}.

Record Iteration : Type := {
  inputs : option Inputs;
  outputs : Outputs;
}.

(** A [Call]: the inputs snapshot ([None] for a bare [Call()]) and the
    iterations appended so far. *)
Record Call : Type := {
  call_inputs : option CallInputs;
  iterations : list Iteration;
}.

Record ValidationOutcome : Type := {
  raw_llm_output : pyval;
  validated_output : pyval;
  validation_passed : bool;
  error : option string;
}.

(** The records of the remote service's answer that [_call_server] reads. *)
Record HistoryEvent : Type := {
  h_instructions : pyval;
  h_prompt : option pyval;
  h_output : pyval;
  h_parsed_output : pyval;
  h_validated_output : pyval;
  h_reasks : option (list (list (string * pyval)));
}.

Record RemoteHistory : Type := {
  history : option (list HistoryEvent);
}.

Record ValidationOutput : Type := {
  vo_result : bool;
  vo_validated_output : pyval;
  vo_raw_llm_response : pyval;
  vo_session_history : option (list RemoteHistory);
}.

Record Credentials : Type := {
  cred_id : pyval;
  no_metrics : pyval;
}.

(** The keyword arguments every runner is built with. *)
Record RunnerArgs : Type := {
  ra_output_type : OutputTypes;
  ra_num_reasks : Z;
  ra_validation_map : list (string * list Validator);
  ra_prompt : pyval;
  ra_instructions : pyval;
  ra_msg_history : pyval;
  ra_api : option Callable;
  ra_metadata : option (gmap string pyval);
  ra_output : pyval;
  ra_base_model : option string;
  ra_full_schema_reask : bool;
  ra_disable_tracer : bool;
}.

(** The attributes of a [Guard] that the methods below read or write.
    [_history] is the stack of calls, oldest first. *)
Record Guard : Type := {
  validators : list ValidatorReference;
  _num_reasks : option Z;
  _base_model : option string;
  _tracer : option string;
  _validator_map : list (string * list Validator);
  _validators : list Validator;
  _api_client : option string;
  _allow_metrics_collection : option bool;
  _exec_opts : GuardExecutionOptions;
  _output_type : OutputTypes;
  _history : list Call;
}.

(** Calls made to collaborators, in the order they are made. *)
Inductive Event : Type :=
| UpsertGuard
| RemoteValidate (payload : gmap string pyval) (openai_api_key : option pyval)
| RunnerCall (a : RunnerArgs) (prompt_params : pyval)
| StreamRunnerCall (a : RunnerArgs) (prompt_params : pyval)
| AsyncRunnerRun (a : RunnerArgs) (prompt_params : pyval).

(** The state a method runs in: the guard it is called on and the calls made
    to collaborators so far. *)
Record World : Type := {
  self : Guard;
  trace : list Event;
}.

(** ** Attribute assignment

    [set_x v g] is the guard after [self.x = v]. *)
Definition set_validators (v : list ValidatorReference) (g : Guard) : Guard :=
  {| validators := v;
     _num_reasks := _num_reasks g;
     _base_model := _base_model g;
     _tracer := _tracer g;
     _validator_map := _validator_map g;
     _validators := _validators g;
     _api_client := _api_client g;
     _allow_metrics_collection := _allow_metrics_collection g;
     _exec_opts := _exec_opts g;
     _output_type := _output_type g;
     _history := _history g |}.

Definition set__num_reasks (v : option Z) (g : Guard) : Guard :=
  {| validators := validators g;
     _num_reasks := v;
     _base_model := _base_model g;
     _tracer := _tracer g;
     _validator_map := _validator_map g;
     _validators := _validators g;
     _api_client := _api_client g;
     _allow_metrics_collection := _allow_metrics_collection g;
     _exec_opts := _exec_opts g;
     _output_type := _output_type g;
     _history := _history g |}.

Definition set__tracer (v : option string) (g : Guard) : Guard :=
  {| validators := validators g;
     _num_reasks := _num_reasks g;
     _base_model := _base_model g;
     _tracer := v;
     _validator_map := _validator_map g;
     _validators := _validators g;
     _api_client := _api_client g;
     _allow_metrics_collection := _allow_metrics_collection g;
     _exec_opts := _exec_opts g;
     _output_type := _output_type g;
     _history := _history g |}.

Definition set__validator_map (v : list (string * list Validator)) (g : Guard) : Guard :=
  {| validators := validators g;
     _num_reasks := _num_reasks g;
     _base_model := _base_model g;
     _tracer := _tracer g;
     _validator_map := v;
     _validators := _validators g;
     _api_client := _api_client g;
     _allow_metrics_collection := _allow_metrics_collection g;
     _exec_opts := _exec_opts g;
     _output_type := _output_type g;
     _history := _history g |}.

Definition set__validators (v : list Validator) (g : Guard) : Guard :=
  {| validators := validators g;
     _num_reasks := _num_reasks g;
     _base_model := _base_model g;
     _tracer := _tracer g;
     _validator_map := _validator_map g;
     _validators := v;
     _api_client := _api_client g;
     _allow_metrics_collection := _allow_metrics_collection g;
     _exec_opts := _exec_opts g;
     _output_type := _output_type g;
     _history := _history g |}.

Definition set__api_client (v : option string) (g : Guard) : Guard :=
  {| validators := validators g;
     _num_reasks := _num_reasks g;
     _base_model := _base_model g;
     _tracer := _tracer g;
     _validator_map := _validator_map g;
     _validators := _validators g;
     _api_client := v;
     _allow_metrics_collection := _allow_metrics_collection g;
     _exec_opts := _exec_opts g;
     _output_type := _output_type g;
     _history := _history g |}.

Definition set__allow_metrics_collection (v : option bool) (g : Guard) : Guard :=
  {| validators := validators g;
     _num_reasks := _num_reasks g;
     _base_model := _base_model g;
     _tracer := _tracer g;
     _validator_map := _validator_map g;
     _validators := _validators g;
     _api_client := _api_client g;
     _allow_metrics_collection := v;
     _exec_opts := _exec_opts g;
     _output_type := _output_type g;
     _history := _history g |}.

Definition set__history (v : list Call) (g : Guard) : Guard :=
  {| validators := validators g;
     _num_reasks := _num_reasks g;
     _base_model := _base_model g;
     _tracer := _tracer g;
     _validator_map := _validator_map g;
     _validators := _validators g;
     _api_client := _api_client g;
     _allow_metrics_collection := _allow_metrics_collection g;
     _exec_opts := _exec_opts g;
     _output_type := _output_type g;
     _history := v |}.

(** ** The monad of methods

    A method maps the state before the call to the state after it and
    either a returned value or a raised exception.  What was assigned before
    an exception is raised stays assigned. *)
Definition M (A : Type) : Type := World -> World * result A.

Definition ret {A} (a : A) : M A := fun w => (w, Ok a).

Definition raise {A} (e : exn) : M A := fun w => (w, Raise e).

Definition bind {A B} (m : M A) (k : A -> M B) : M B :=
  fun w =>
    match m w with
    | (w', Ok a) => k a w'
    | (w', Raise e) => (w', Raise e)
    end.

Notation "x <- m ;; k" := (bind m (fun x => k))
  (at level 100, m at next level, right associativity).
Notation "m ;; k" := (bind m (fun _ => k))
  (at level 100, right associativity).

Definition get_self : M Guard := fun w => (w, Ok (self w)).

Definition get_trace : M (list Event) := fun w => (w, Ok (trace w)).

Definition modify_self (f : Guard -> Guard) : M unit :=
  fun w => ({| self := f (self w); trace := trace w |}, Ok tt).

Definition emit (e : Event) : M unit :=
  fun w => ({| self := self w; trace := trace w ++ [e] |}, Ok tt).

Definition lift {A} (r : result A) : M A :=
  match r with Ok a => ret a | Raise e => raise e end.

(** [for x in l: body(x)]. *)
Fixpoint for_each {A} (l : list A) (body : A -> M unit) : M unit :=
  match l with
  | [] => ret tt
  | x :: l' => body x ;; for_each l' body
  end.

(** A list comprehension whose element expression may raise. *)
Fixpoint map_result {A B} (f : A -> result B) (l : list A) : result (list B) :=
  match l with
  | [] => Ok []
  | x :: l' =>
      match f x with
      | Raise e => Raise e
      | Ok y =>
          match map_result f l' with
          | Raise e => Raise e
          | Ok ys => Ok (y :: ys)
          end
      end
  end.

(** A reference to a [Call] object: the one at a position of the guard's
    history stack, or one that is on no stack. *)
Inductive CallRef : Type :=
| InHistory (i : nat)
| Detached (c : Call).

Definition empty_call : Call := {| call_inputs := None; iterations := [] |}.

Definition read_call (r : CallRef) : M Call :=
  g <- get_self ;;
  ret match r with
      | InHistory i => default empty_call (_history g !! i)
      | Detached c => c
      end.

Definition extend (its : list Iteration) (c : Call) : Call :=
  {| call_inputs := call_inputs c; iterations := iterations c ++ its |}.

(** [call_log.iterations.extend(its)]: seen through every alias of the
    object. *)
Definition extend_iterations (r : CallRef) (its : list Iteration) : M CallRef :=
  match r with
  | InHistory i =>
      modify_self (fun g => set__history (alter (extend its) i (_history g)) g) ;;
      ret (InHistory i)
  | Detached c => ret (Detached (extend its c))
  end.

(** [self._history.push(call_log)]; the reference returned is the pushed
    object's. *)
Definition push_history (r : CallRef) : M CallRef :=
  match r with
  | InHistory i =>
      g <- get_self ;;
      modify_self (set__history (_history g ++ [default empty_call (_history g !! i)])) ;;
      ret (InHistory i)
  | Detached c =>
      g <- get_self ;;
      modify_self (set__history (_history g ++ [c])) ;;
      ret (InHistory (length (_history g)))
  end.

(** The arguments of one invocation of [_execute]: the positional [*args],
    the named parameters and the remaining [**kwargs]. *)
Record ExecArgs : Type := {
  args : list pyval;
  llm_api : option Callable;
  llm_output : pyval;
  prompt_params : pyval;
  num_reasks : option Z;
  prompt : pyval;
  instructions : pyval;
  msg_history : pyval;
  metadata : option (gmap string pyval);
  full_schema_reask : option bool;
  kwargs : gmap string pyval;
}.

(** What [_execute] hands back: one outcome, the outcomes of a stream, or
    the outcome a coroutine resolves to once awaited. *)
Inductive Returned : Type :=
| Outcome (o : ValidationOutcome)
| Outcomes (os : list ValidationOutcome)
| Awaitable (o : ValidationOutcome).

(** Modelled from the spec: [verify_metadata_requirements] is defined in
    guardrails/utils/validator_utils.py, which is not part of the sources.
    It returns the metadata keys that the validators declare as required and
    that the supplied metadata map lacks: all of them, in the order of the
    validators.  An absent map supplies no key. *)
Definition verify_metadata_requirements
  (metadata : option (gmap string pyval)) (vs : list Validator) : list string :=
  List.filter
    (fun k => match default ∅ metadata !! k with Some _ => false | None => true end)
    (concat (map required_metadata_keys vs)).

(** The last element of a Python list, if any. *)
Definition last_iteration (c : Call) : option Iteration := last (iterations c).

(** Modelled from the spec: [ValidationOutcome.from_guard_history] is defined
    in guardrails/classes/validation_outcome.py, which is not part of the
    sources.  Given a completed Call it reads the last Iteration: the raw
    output and the validated output are that Iteration's, the outcome passes
    iff that Iteration has no FieldReAsk entry, and no error is reported.
    It only reads the Call.  A Call without Iteration yields empty outputs. *)
Definition from_guard_history (r : CallRef) : M ValidationOutcome :=
  call <- read_call r ;;
  ret match last_iteration call with
      | Some it =>
          {| raw_llm_output := raw_output (outputs it);
             validated_output := validation_output (outputs it);
             validation_passed :=
               match reasks (outputs it) with [] => true | _ => false end;
             error := None |}
      | None =>
          {| raw_llm_output := PNone;
             validated_output := PNone;
             validation_passed := true;
             error := None |}
      end.

(** [len(v)]. *)
Definition py_len (v : pyval) : result nat :=
  match v with
  | PStr s => Ok (String.length s)
  | PList l => Ok (length l)
  | PDict d => Ok (length d)
  | _ => Raise (TypeError "object has no len()")
  end.

(** ** The methods of [Guard] *)
Section GuardMethods.

(** Collaborators from other modules. *)
Variable model_is_supported_server_side :
  option Callable -> list pyval -> gmap string pyval -> bool.
Variable get_validator : ValidatorSpec -> result Validator.
Variable str_of : pyval -> string.
Variable get_llm_api_enum : Callable -> pyval.
Variable from_rc_file : Credentials.
Variable rail_output_type : Guard -> result pyval.
(** [x.to_dict() if isinstance(x, Any) else x]. *)
Variable plain_value : pyval -> result pyval.
(** The remote service: its answer to a payload, given the calls made
    before; [None] is an empty answer. *)
Variable api_validate :
  list Event -> gmap string pyval -> option pyval -> option ValidationOutput.
(** The runners: the iterations they append to the call log, and how they
    end. *)
Variable runner_call : RunnerArgs -> Call -> pyval -> list Iteration * option exn.
Variable async_runner_run :
  RunnerArgs -> Call -> pyval -> list Iteration * option exn.
Variable stream_runner_call :
  RunnerArgs -> Call -> pyval -> list Iteration * result (list ValidationOutcome).

Definition _set_num_reasks (num_reasks : option Z) : M unit :=
  modify_self (set__num_reasks num_reasks).

Definition _set_tracer (tracer : option string) : M unit :=
  modify_self (set__tracer tracer).

(** [credentials] is bound only when [allow_metrics_collection] is [None];
    reading it otherwise is an [UnboundLocalError].  The user id and the
    telemetry singleton that are set afterwards are not modelled. *)
Definition _configure_telemtry (allow_metrics_collection : option bool) : M unit :=
  let credentials :=
    match allow_metrics_collection with None => Some from_rc_file | Some _ => None end in
  let allow :=
    match allow_metrics_collection with
    | None => is_false (no_metrics from_rc_file)
    | Some b => b
    end in
  modify_self (set__allow_metrics_collection (Some allow)) ;;
  if allow then
    match credentials with
    | Some _ => ret tt
    | None => raise (UnboundLocalError "credentials")
    end
  else ret tt.

Definition configure (num_reasks : option Z) (tracer : option string)
  (allow_metrics_collection : option bool) : M unit :=
  (if truthy_int num_reasks then _set_num_reasks num_reasks else ret tt) ;;
  match tracer with Some _ => _set_tracer tracer | None => ret tt end ;;
  _configure_telemtry allow_metrics_collection.

(** The reference's validator as the lambda of [_fill_validator_map] tests
    it. *)
Definition ref_matches (ref : ValidatorReference) (v : Validator) : bool :=
  String.eqb (rail_alias v) (ref_id ref)
  && String.eqb (on_fail_descriptor v) (ref_on_fail ref)
  && dict_eqb (get_args v) (ref_kwargs ref).

Definition _fill_validator_map : M unit :=
  g <- get_self ;;
  for_each (validators g) (fun ref =>
    g <- get_self ;;
    let entry := default [] (dict_get (_validator_map g) (ref_on ref)) in
    match List.filter (ref_matches ref) entry with
    | _ :: _ => ret tt
    | [] =>
        let serialized_args :=
          map (fun arg => "{" ++ str_of arg ++ "}") (dict_values (ref_kwargs ref)) in
        let string_syntax :=
          if (0 <? length serialized_args)%nat
          then ref_id ref ++ ": " ++ join " " serialized_args
          else ref_id ref in
        v <- lift (get_validator (SpecString string_syntax (ref_on_fail ref))) ;;
        modify_self (fun g =>
          set__validator_map (dict_set (_validator_map g) (ref_on ref) (entry ++ [v])%list) g)
    end).

Definition _fill_validators : M unit :=
  modify_self (fun g => set__validators (concat (dict_values (_validator_map g))) g).

(** The part of [__init__] after the call to the parent's initialiser:
    [api_key] is the value of the GUARDRAILS_API_KEY environment variable. *)
Definition __init__ (validators : list ValidatorReference)
  (api_key : option string) : M unit :=
  modify_self (set_validators validators) ;;
  modify_self (set__validator_map []) ;;
  modify_self (set__validators []) ;;
  _fill_validator_map ;;
  _fill_validators ;;
  modify_self (set__history []) ;;
  match api_key with
  | Some key => modify_self (set__api_client (Some key)) ;; emit UpsertGuard
  | None => ret tt
  end.

(** The keyword arguments shared by [Runner], [StreamRunner] and
    [AsyncRunner]. *)
Definition runner_args (g : Guard) (api : option Callable) (num_reasks : Z)
  (prompt instructions msg_history : pyval)
  (metadata : option (gmap string pyval)) (llm_output : pyval)
  (full_schema_reask : bool) : RunnerArgs :=
  {| ra_output_type := _output_type g;
     ra_num_reasks := num_reasks;
     ra_validation_map := _validator_map g;
     ra_prompt := prompt;
     ra_instructions := instructions;
     ra_msg_history := msg_history;
     ra_api := api;
     ra_metadata := metadata;
     ra_output := llm_output;
     ra_base_model := _base_model g;
     ra_full_schema_reask := full_schema_reask;
     ra_disable_tracer := negb (default false (_allow_metrics_collection g)) |}.

Definition _exec_sync (args : list pyval) (llm_api : option Callable)
  (llm_output : pyval) (call_log : CallRef) (prompt_params : pyval)
  (num_reasks : Z) (metadata : option (gmap string pyval))
  (full_schema_reask : bool) (prompt instructions msg_history : pyval)
  (kwargs : gmap string pyval) : M Returned :=
  g <- get_self ;;
  let api :=
    match llm_api with
    | Some f => Some (get_llm_ask f args kwargs)
    | None => None
    end in
  let runner :=
    runner_args g api num_reasks prompt instructions msg_history metadata
      llm_output full_schema_reask in
  if truthy (default (PBool false) (kwargs !! "stream")) then
    emit (StreamRunnerCall runner prompt_params) ;;
    call <- read_call call_log ;;
    let '(its, outcomes) := stream_runner_call runner call prompt_params in
    extend_iterations call_log its ;;
    os <- lift outcomes ;;
    ret (Outcomes os)
  else
    emit (RunnerCall runner prompt_params) ;;
    call <- read_call call_log ;;
    let '(its, err) := runner_call runner call prompt_params in
    call <- extend_iterations call_log its ;;
    match err with
    | Some e => raise e
    | None => o <- from_guard_history call ;; ret (Outcome o)
    end.

(** The coroutine is run to completion: where it suspends is not
    modelled. *)
Definition _exec_async (args : list pyval) (llm_api : option Callable)
  (llm_output : pyval) (call_log : CallRef) (prompt_params : pyval)
  (num_reasks : Z) (metadata : option (gmap string pyval))
  (full_schema_reask : bool) (prompt instructions msg_history : pyval)
  (kwargs : gmap string pyval) : M Returned :=
  g <- get_self ;;
  let api :=
    match llm_api with
    | Some f => Some (get_async_llm_ask f args kwargs)
    | None => None
    end in
  let runner :=
    runner_args g api num_reasks prompt instructions msg_history metadata
      llm_output full_schema_reask in
  emit (AsyncRunnerRun runner prompt_params) ;;
  call <- read_call call_log ;;
  let '(its, err) := async_runner_run runner call prompt_params in
  call <- extend_iterations call_log its ;;
  match err with
  | Some e => raise e
  | None => o <- from_guard_history call ;; ret (Awaitable o)
  end.

(** The Iteration that [_call_server] rebuilds from one record of the remote
    history. *)
Definition iteration_of_event (llm_api : option Callable) (llm_output : pyval)
  (prompt_params : pyval) (num_reasks : option Z)
  (metadata : option (gmap string pyval)) (full_schema_reask : option bool)
  (h : HistoryEvent) : result Iteration :=
  match plain_value (h_parsed_output h) with
  | Raise e => Raise e
  | Ok parsed =>
      match plain_value (h_validated_output h) with
      | Raise e => Raise e
      | Ok validated =>
          Ok {| inputs := Some
                  {| in_llm_api := llm_api;
                     in_llm_output := llm_output;
                     in_instructions :=
                       if truthy (h_instructions h) then h_instructions h else PNone;
                     in_prompt := default PNone (h_prompt h);
                     in_prompt_params := prompt_params;
                     in_num_reasks :=
                       if truthy_int num_reasks then default 0 num_reasks else 0;
                     in_metadata := metadata;
                     in_full_schema_reask := full_schema_reask |};
                outputs :=
                  {| raw_output := h_output h;
                     parsed_output := parsed;
                     validation_output := validated;
                     reasks :=
                       match h_reasks h with
                       | Some rs =>
                           map (fun r =>
                                  {| incorrect_value :=
                                       default PNone (dict_get r "incorrect_value");
                                     path := default PNone (dict_get r "path");
                                     fail_results :=
                                       [ {| error_message :=
                                              default PNone (dict_get r "error_message");
                                            fix_value :=
                                              default PNone (dict_get r "fix_value") |} ]
                                  |}) rs
                       | None => []
                       end |} |}
      end
  end.

(** The loop of [_call_server] over the remote session history; the state
    threaded through it is the local variable [call_log]. *)
Fixpoint merge_session_history (mk : HistoryEvent -> result Iteration)
  (session_history : list RemoteHistory) (call_log : CallRef) : M CallRef :=
  match session_history with
  | [] => ret call_log
  | h :: rest =>
      match history h with
      | None => merge_session_history mk rest call_log
      | Some history_events =>
          its <- lift (map_result mk history_events) ;;
          call_log <- extend_iterations call_log its ;;
          g <- get_self ;;
          call_log <-
            (if (length (_history g) =? 0)%nat
             then push_history call_log else ret call_log) ;;
          merge_session_history mk rest call_log
      end
  end.

(** The request body that [_call_server] assembles before it calls the
    remote service.  Updating the payload with the keyword arguments lets
    one named [args] replace the positional ones. *)
Definition server_payload (args : list pyval) (kwargs : gmap string pyval)
  (llm_output : pyval) (num_reasks : option Z) (prompt_params : pyval)
  (llm_api : option Callable) : gmap string pyval :=
  let payload : gmap string pyval := {[ "args" := PList args ]} in
  let payload := kwargs ∪ payload in
  let payload :=
    if is_none llm_output then payload
    else <[ "llmOutput" := llm_output ]> payload in
  let payload :=
    match num_reasks with
    | Some n => <[ "numReasks" := PInt n ]> payload
    | None => payload
    end in
  let payload :=
    if is_none prompt_params then payload
    else <[ "promptParams" := prompt_params ]> payload in
  match llm_api with
  | Some f => <[ "llmApi" := get_llm_api_enum f ]> payload
  | None => payload
  end.

(** [get_call_kwarg] reads the keyword arguments that [__exec] stored for
    the invocation, which are the ones passed on here. *)
Definition _call_server (args : list pyval) (llm_output : pyval)
  (llm_api : option Callable) (num_reasks : option Z) (prompt_params : pyval)
  (metadata : option (gmap string pyval)) (full_schema_reask : option bool)
  (call_log : option CallRef) (kwargs : gmap string pyval) : M Returned :=
  g <- get_self ;;
  match _api_client g with
  | Some _ =>
      let payload :=
        server_payload args kwargs llm_output num_reasks prompt_params llm_api in
      let openai_api_key := kwargs !! "api_key" in
      before <- get_trace ;;
      emit (RemoteValidate payload openai_api_key) ;;
      match api_validate before payload openai_api_key with
      | None =>
          ret (Outcome
                 {| raw_llm_output := PNone;
                    validated_output := PNone;
                    validation_passed := false;
                    error := Some "The response from the server was empty!" |})
      | Some validation_output =>
          let call_log := default (Detached empty_call) call_log in
          let llm_api :=
            match llm_api with
            | Some f =>
                let f := get_llm_ask f [] ∅ in
                Some (if iscoroutinefunction (Some f)
                      then get_async_llm_ask f [] ∅ else f)
            | None => None
            end in
          let session_history :=
            match vo_session_history validation_output with
            | Some (h :: t) => h :: t
            | _ => []
            end in
          merge_session_history
            (iteration_of_event llm_api llm_output prompt_params num_reasks
               metadata full_schema_reask)
            session_history call_log ;;
          ret (Outcome
                 {| raw_llm_output := vo_raw_llm_response validation_output;
                    validated_output := vo_validated_output validation_output;
                    validation_passed := vo_result validation_output;
                    error := None |})
      end
  | None => raise (ValueError "Guard does not have an api client!")
  end.

(** The nested function [__exec] of [_execute].  The telemetry span and the
    context variables it sets (call kwargs, tracer) live in other modules
    and are left out. *)
Definition __exec (a : ExecArgs) : M Returned :=
  g <- get_self ;;
  let full_schema_reask :=
    match full_schema_reask a with
    | Some b => b
    | None => match _base_model g with Some _ => true | None => false end
    end in
  _set_num_reasks (num_reasks a) ;;
  g <- get_self ;;
  match _num_reasks g with
  | None =>
      raise (RuntimeError
               "`num_reasks` is `None` after calling `configure()`. This should never happen.")
  | Some n =>
      let input_prompt := py_or (prompt a) (eo_prompt (_exec_opts g)) in
      let input_instructions :=
        py_or (instructions a) (eo_instructions (_exec_opts g)) in
      let call_inputs :=
        {| ci_llm_api := llm_api a;
           ci_prompt := input_prompt;
           ci_instructions := input_instructions;
           ci_msg_history := msg_history a;
           ci_prompt_params := prompt_params a;
           ci_num_reasks := n;
           ci_metadata := metadata a;
           ci_full_schema_reask := full_schema_reask;
           ci_args := args a;
           ci_kwargs := kwargs a |} in
      call_log <-
        push_history
          (Detached {| call_inputs := Some call_inputs; iterations := [] |}) ;;
      if match _api_client g with Some _ => true | None => false end
         && model_is_supported_server_side (llm_api a) (args a) (kwargs a)
      then
        _call_server (args a) (llm_output a) (llm_api a) (Some n)
          (prompt_params a) (Some ∅) (Some full_schema_reask) (Some call_log)
          (kwargs a)
      else if iscoroutinefunction (llm_api a) then
        _exec_async (args a) (llm_api a) (llm_output a) call_log
          (prompt_params a) n (metadata a) full_schema_reask (prompt a)
          (instructions a) (msg_history a) (kwargs a)
      else
        _exec_sync (args a) (llm_api a) (llm_output a) call_log
          (prompt_params a) n (metadata a) full_schema_reask (prompt a)
          (instructions a) (msg_history a) (kwargs a)
  end.

Definition _execute (a : ExecArgs) : M Returned :=
  if negb (truthy_callable (llm_api a)) && negb (truthy (llm_output a)) then
    raise (RuntimeError "'llm_api' or 'llm_output' must be provided!")
  else if negb (truthy (llm_output a)) && truthy_callable (llm_api a)
          && negb (truthy (py_or (prompt a) (msg_history a))) then
    raise (RuntimeError
             "'prompt' or 'msg_history' must be provided in order to call an LLM!")
  else
    g <- get_self ;;
    let missing_keys := verify_metadata_requirements (metadata a) (_validators g) in
    match missing_keys with
    | _ :: _ =>
        raise (ValueError
                 ("Missing required metadata keys: " ++ join ", " missing_keys))
    | [] => __exec a
    end.

Definition __call__ (llm_api : Callable) (args : list pyval)
  (prompt_params : pyval) (num_reasks : option Z)
  (prompt instructions msg_history : pyval)
  (metadata : option (gmap string pyval)) (full_schema_reask : option bool)
  (kwargs : gmap string pyval) : M Returned :=
  g <- get_self ;;
  let instructions := py_or instructions (eo_instructions (_exec_opts g)) in
  let prompt := py_or prompt (eo_prompt (_exec_opts g)) in
  let msg_history := py_or msg_history (PList []) in
  empty_history <-
    (if is_none prompt && negb (is_none msg_history)
     then n <- lift (py_len msg_history) ;; ret (n =? 0)%nat
     else ret false) ;;
  if (empty_history : bool) then
    raise (RuntimeError
             "You must provide a prompt if msg_history is empty. Alternatively, you can provide a prompt in the Schema constructor.")
  else
    _execute
      {| args := args; llm_api := Some llm_api; llm_output := PNone;
         prompt_params := prompt_params; num_reasks := num_reasks;
         prompt := prompt; instructions := instructions;
         msg_history := msg_history; metadata := metadata;
         full_schema_reask := full_schema_reask; kwargs := kwargs |}.

(** [kwargs.pop(key, default)] and [kwargs.pop(key)]. *)
Definition pop_default (kwargs : gmap string pyval) (key : string) (d : pyval)
  : pyval * gmap string pyval :=
  (default d (kwargs !! key), delete key kwargs).

Definition pop (kwargs : gmap string pyval) (key : string)
  : result (pyval * gmap string pyval) :=
  match kwargs !! key with
  | Some v => Ok (v, delete key kwargs)
  | None => Raise (KeyError key)
  end.

Definition parse (llm_output : pyval) (args : list pyval)
  (metadata : option (gmap string pyval)) (llm_api : option Callable)
  (num_reasks : option Z) (prompt_params : pyval)
  (full_schema_reask : option bool) (kwargs : gmap string pyval) : M Returned :=
  g <- get_self ;;
  let final_num_reasks :=
    match num_reasks with
    | Some n => n
    | None =>
        match _num_reasks g with
        | Some n => n
        | None => match llm_api with None => 0 | Some _ => 1 end
        end
    end in
  let '(prompt, kwargs) := pop_default kwargs "prompt" (eo_prompt (_exec_opts g)) in
  let '(instructions, kwargs) :=
    pop_default kwargs "instructions" (eo_instructions (_exec_opts g)) in
  popped <- lift (pop kwargs "msg_history") ;;
  let '(msg_history, kwargs) := popped in
  _execute
    {| args := args; llm_api := llm_api; llm_output := llm_output;
       prompt_params := prompt_params; num_reasks := Some final_num_reasks;
       prompt := prompt; instructions := instructions;
       msg_history := msg_history; metadata := metadata;
       full_schema_reask := full_schema_reask; kwargs := kwargs |}.

(** [self._validator_map[on].append(validator)]. *)
Definition append_at (m : list (string * list Validator)) (on : string)
  (validator : Validator) : list (string * list Validator) :=
  map (fun kv => if String.eqb on (fst kv)
                 then (fst kv, (snd kv ++ [validator])%list) else kv) m.

Definition __add_validator (validator : Validator) (on : string) : M unit :=
  g <- get_self ;;
  if negb (OutputTypes_eqb (_output_type g) STRING) then
    raise (RuntimeError
             "The `use` method is only available for string output types.")
  else
    let on := if String.eqb on "output" then "$" else on in
    let validator_reference :=
      {| ref_id := rail_alias validator;
         ref_on := on;
         ref_on_fail := on_fail_descriptor validator;
         ref_kwargs := get_args validator |} in
    modify_self (fun g => set_validators (validators g ++ [validator_reference]) g) ;;
    modify_self (fun g =>
      set__validator_map
        (dict_set (_validator_map g) on
           (default [] (dict_get (_validator_map g) on))) g) ;;
    modify_self (fun g =>
      set__validator_map (append_at (_validator_map g) on validator) g) ;;
    modify_self (fun g => set__validators (_validators g ++ [validator]) g).

Definition use (validator : ValidatorSpec) (on : string) : M unit :=
  hydrated_validator <- lift (get_validator validator) ;;
  __add_validator hydrated_validator on.

(** [rail] is no attribute that this class defines: what reading
    [self.rail.output_type] gives is the collaborator
    [rail_output_type]. *)
Definition use_many (validators : list ValidatorSpec) (on : string) : M unit :=
  g <- get_self ;;
  output_type <- lift (rail_output_type g) ;;
  if negb (pyval_eqb output_type (PStr "str")) then
    raise (RuntimeError
             "The `use_many` method is only available for string output types.")
  else
    for_each validators (fun v =>
      hydrated_validator <- lift (get_validator v) ;;
      __add_validator hydrated_validator on).

End GuardMethods.

(** ** Vocabulary of the properties *)

(** The four execution strategies of the router. *)
Inductive Strategy : Type := Remote | Asynchronous | Streaming | Synchronous.

(** The strategy that a call to a collaborator belongs to. *)
Definition strategy_of (e : Event) : option Strategy :=
  match e with
  | UpsertGuard => None
  | RemoteValidate _ _ => Some Remote
  | AsyncRunnerRun _ _ => Some Asynchronous
  | StreamRunnerCall _ _ => Some Streaming
  | RunnerCall _ _ => Some Synchronous
  end.

(** The router's priority as the specification words it: remote delegation
    when a client is configured and the target is supported remotely, else
    asynchronous for an asynchronous target, else streaming when the caller
    asks for it, else synchronous. *)
Definition select_strategy
  (supported : option Callable -> list pyval -> gmap string pyval -> bool)
  (g : Guard) (a : ExecArgs) : Strategy :=
  if bool_decide (is_Some (_api_client g))
     && supported (llm_api a) (args a) (kwargs a) then Remote
  else if iscoroutinefunction (llm_api a) then Asynchronous
  else if truthy (default (PBool false) (kwargs a !! "stream")) then Streaming
  else Synchronous.

(** The first precondition as the specification words it: a target or an
    output is supplied, and a target without output comes with a prompt or a
    message history. *)
Definition inputs_supplied (a : ExecArgs) : bool :=
  (truthy_callable (llm_api a) || truthy (llm_output a))
  && (if truthy_callable (llm_api a) && negb (truthy (llm_output a))
      then truthy (prompt a) || truthy (msg_history a) else true).

(** The [full_schema_reask] value as the specification resolves it. *)
Definition resolved_full_schema_reask (g : Guard) (a : ExecArgs) : bool :=
  match full_schema_reask a with
  | Some b => b
  | None => bool_decide (is_Some (_base_model g))
  end.

(** [msg] names the key [k]: [k] occurs in it. *)
Definition names (msg k : string) : Prop :=
  exists pre post, msg = pre ++ k ++ post.

(** Whether [k] occurs in [msg], by trying every position. *)
Fixpoint occurs (k msg : string) : bool :=
  match msg with
  | EmptyString => String.prefix k EmptyString
  | String c rest => String.prefix k msg || occurs k rest
  end.

(** The invariant of the validator map: no path is mapped to an empty
    sequence. *)
Definition no_empty_entry (m : list (string * list Validator)) : Prop :=
  Forall (fun kv => snd kv <> []) m.






(** The inputs snapshot that [__exec] records for an invocation whose retry
    budget is [n]. *)
Definition recorded_inputs (g : Guard) (a : ExecArgs) (n : Z) : CallInputs :=
  {| ci_llm_api := llm_api a;
     ci_prompt := py_or (prompt a) (eo_prompt (_exec_opts g));
     ci_instructions := py_or (instructions a) (eo_instructions (_exec_opts g));
     ci_msg_history := msg_history a;
     ci_prompt_params := prompt_params a;
     ci_num_reasks := n;
     ci_metadata := metadata a;
     ci_full_schema_reask := resolved_full_schema_reask g a;
     ci_args := args a;
     ci_kwargs := kwargs a |}.

(** The state in which [__exec] routes: the budget is stored and the new
    call is on the history stack. *)
Definition routing_state (w : World) (a : ExecArgs) (n : Z) : World :=
  {| self :=
       set__history
         (_history (self w)
          ++ [ {| call_inputs := Some (recorded_inputs (self w) a n);
                  iterations := [] |} ])
         (set__num_reasks (Some n) (self w));
     trace := trace w |}.



(** A computation that keeps the invariant of the validator map, however it
    ends. *)
Definition keeps_map {A} (m : M A) : Prop :=
  forall w, no_empty_entry (_validator_map (self w)) ->
            no_empty_entry (_validator_map (self (fst (m w)))).

(** The call object that a reference denotes in a state. *)
Definition call_of (w : World) (r : CallRef) : Call :=
  match r with
  | InHistory i => default empty_call (_history (self w) !! i)
  | Detached c => c
  end.

(** ** Concrete collaborators, guards and invocations

    Used to run the methods on examples. *)

(** A remote service that supports the target named [openai] only and
    answers nothing. *)
Definition openai_only (f : option Callable) (_ : list pyval)
  (_ : gmap string pyval) : bool :=
  match f with
  | Some (Function name _) => String.eqb name "openai"
  | _ => false
  end.

Definition silent_service (_ : list Event) (_ : gmap string pyval)
  (_ : option pyval) : option ValidationOutput := None.

Definition api_enum (_ : Callable) : pyval := PStr "openai".

Definition as_is (v : pyval) : result pyval := Ok v.

Definition text_of (v : pyval) : string :=
  match v with PStr s => s | _ => "?" end.

(** A registry that knows instances and the string syntax, but no class. *)
Definition registry (spec : ValidatorSpec) : result Validator :=
  match spec with
  | SpecInstance v => Ok v
  | SpecString syntax on_fail =>
      Ok {| rail_alias := syntax; on_fail_descriptor := on_fail;
            get_args := []; required_metadata_keys := [] |}
  | SpecClass name _ _ => Raise (OtherError "validator not found")
  end.

Definition rc_credentials : Credentials :=
  {| cred_id := PStr "user"; no_metrics := PBool true |}.

Definition str_rail (_ : Guard) : result pyval := Ok (PStr "str").

(** A model that always returns [toolong], with a reask on the whole
    output. *)
Definition toolong_iteration : Iteration :=
  {| inputs := None;
     outputs :=
       {| raw_output := PStr "toolong";
          parsed_output := PStr "toolong";
          validation_output := PStr "toolong";
          reasks :=
            [ {| incorrect_value := PStr "toolong"; path := PStr "$";
                 fail_results :=
                   [ {| error_message := PStr "too long"; fix_value := PStr "toolo" |} ]
              |} ] |} |}.

Definition toolong_runner (_ : RunnerArgs) (_ : Call) (_ : pyval)
  : list Iteration * option exn := ([toolong_iteration], None).

Definition toolong_stream (_ : RunnerArgs) (_ : Call) (_ : pyval)
  : list Iteration * result (list ValidationOutcome) :=
  ([toolong_iteration],
   Ok [ {| raw_llm_output := PStr "toolong"; validated_output := PNone;
           validation_passed := false; error := None |} ]).

Definition valid_length : Validator :=
  {| rail_alias := "valid-length"; on_fail_descriptor := "reask";
     get_args := [("max", PInt 5)]; required_metadata_keys := [] |}.

Definition needs_keys : Validator :=
  {| rail_alias := "needs-keys"; on_fail_descriptor := "noop";
     get_args := []; required_metadata_keys := ["k1"; "k2"]%string |}.

Definition no_exec_opts : GuardExecutionOptions :=
  {| eo_prompt := PNone; eo_instructions := PNone;
     eo_reask_prompt := PNone; eo_reask_instructions := PNone |}.

(** A string guard with one validator, a configured budget of 3 and no
    remote client. *)
Definition string_guard : Guard :=
  {| validators :=
       [ {| ref_id := "valid-length"; ref_on := "$"; ref_on_fail := "reask";
            ref_kwargs := [("max", PInt 5)] |} ];
     _num_reasks := Some 3;
     _base_model := None;
     _tracer := None;
     _validator_map := [("$"%string, [valid_length])];
     _validators := [valid_length];
     _api_client := None;
     _allow_metrics_collection := Some false;
     _exec_opts := no_exec_opts;
     _output_type := STRING;
     _history := [] |}.

Definition keyed_guard : Guard := set__validators [needs_keys] string_guard.

Definition remote_guard : Guard := set__api_client (Some "key"%string) string_guard.

Definition world_of (g : Guard) : World := {| self := g; trace := [] |}.

(** [_execute(llm_api=api, llm_output=output, prompt=prompt,
    num_reasks=n, **kwargs)] with an empty metadata map. *)
Definition invocation (api : option Callable) (output prompt : pyval)
  (n : option Z) (kwargs : gmap string pyval) : ExecArgs :=
  {| args := []; llm_api := api; llm_output := output; prompt_params := PNone;
     num_reasks := n; prompt := prompt; instructions := PNone;
     msg_history := PNone; metadata := Some ∅; full_schema_reask := None;
     kwargs := kwargs |}.


Definition local_model : Callable := Function "local_model" false.

Definition async_model : Callable := Function "async_model" true.

(** The methods with these collaborators plugged in. *)
Definition run_execute : ExecArgs -> M Returned :=
  _execute openai_only api_enum as_is silent_service toolong_runner
    toolong_runner toolong_stream.


Definition sync_call : ExecArgs :=
  invocation (Some local_model) PNone (PStr "hi") (Some 2) ∅.

Definition stream_call : ExecArgs :=
  invocation (Some local_model) PNone (PStr "hi") (Some 2)
    {[ "stream" := PBool true ]}.

Definition async_call : ExecArgs :=
  invocation (Some async_model) PNone (PStr "hi") (Some 2)
    {[ "stream" := PBool true ]}.

(** An asynchronous target that the remote service supports. *)
Definition remote_call : ExecArgs :=
  invocation (Some (Function "openai" true)) PNone (PStr "hi") (Some 2) ∅.



Definition no_input_call : ExecArgs :=
  invocation None PNone (PStr "hi") (Some 2) ∅.

Definition no_prompt_call : ExecArgs :=
  invocation (Some local_model) PNone PNone (Some 2) ∅.

(** ** Further methods of [Guard] *)
Section RunnableMethods.

Variable model_is_supported_server_side :
  option Callable -> list pyval -> gmap string pyval -> bool.
Variable str_of : pyval -> string.
Variable get_llm_api_enum : Callable -> pyval.
Variable plain_value : pyval -> result pyval.
Variable api_validate :
  list Event -> gmap string pyval -> option pyval -> option ValidationOutput.
Variable runner_call : RunnerArgs -> Call -> pyval -> list Iteration * option exn.
Variable async_runner_run :
  RunnerArgs -> Call -> pyval -> list Iteration * option exn.
Variable stream_runner_call :
  RunnerArgs -> Call -> pyval -> list Iteration * result (list ValidationOutcome).
(** [json.dumps]. *)
Variable json_dumps : pyval -> string.

Definition upsert_guard : M unit :=
  g <- get_self ;;
  match _api_client g with
  | Some _ => emit UpsertGuard
  | None => raise (ValueError "Guard does not have an api client!")
  end.

(** [validate] passes [llm_output] to [parse] by keyword and its own
    positional arguments after it: a positional argument is then a second
    value for the first parameter of [parse], which is a [TypeError].  The
    keyword arguments that [parse] names are bound to its parameters. *)
Definition validate (llm_output : pyval) (args : list pyval)
  (metadata : option (gmap string pyval)) (llm_api : option Callable)
  (num_reasks : option Z) (prompt_params : pyval)
  (full_schema_reask : option bool) (kwargs : gmap string pyval) : M Returned :=
  match args with
  | [] =>
      parse model_is_supported_server_side get_llm_api_enum plain_value
        api_validate runner_call async_runner_run stream_runner_call
        llm_output [] metadata llm_api num_reasks prompt_params
        full_schema_reask kwargs
  | _ :: _ =>
      raise (TypeError "parse() got multiple values for argument 'llm_output'")
  end.

(** What [invoke] takes and gives back: a plain value or a chat message
    with its content. *)
Inductive InputType : Type :=
| PlainInput (v : pyval)
| ChatMessage (content : pyval) (type : string).

Definition invoke (input : InputType) : M InputType :=
  let output := ChatMessage (PStr "") "" in
  let '(input_is_chat_message, str_input, output) :=
    match input with
    | ChatMessage content _ => (true, str_of content, input)
    | PlainInput v => (false, str_of v, output)
    end in
  response <- validate (PStr str_input) [] None None None PNone None ∅ ;;
  validated_output <-
    match response with
    | Outcome o => ret (validated_output o)
    | _ => raise (OtherError "AttributeError: validated_output")
    end ;;
  if negb (truthy validated_output) then
    raise (OtherError
             "ValidationError: The response from the LLM failed validation!See `guard.history` for more details.")
  else
    let validated_output :=
      match validated_output with
      | PDict _ => PStr (json_dumps validated_output)
      | _ => validated_output
      end in
    if input_is_chat_message then
      match output with
      | ChatMessage _ type => ret (ChatMessage validated_output type)
      | PlainInput _ => ret output
      end
    else ret (PlainInput validated_output).

End RunnableMethods.

(** ** Vocabulary of the further properties *)

(** The iterations that the loop of [_call_server] rebuilds from a remote
    session history, one history after the other, up to the first record
    that cannot be rebuilt; and that failure, if any. *)
Fixpoint remote_iterations (mk : HistoryEvent -> result Iteration)
  (session_history : list RemoteHistory) : list Iteration * option exn :=
  match session_history with
  | [] => ([], None)
  | h :: rest =>
      match history h with
      | None => remote_iterations mk rest
      | Some history_events =>
          match map_result mk history_events with
          | Raise e => ([], Some e)
          | Ok its =>
              let '(more, err) := remote_iterations mk rest in
              ((its ++ more)%list, err)
          end
      end
  end.

(** The arguments that a runner is built and called with. *)
Definition event_runner_args (e : Event) : option (RunnerArgs * pyval) :=
  match e with
  | RunnerCall r p | StreamRunnerCall r p | AsyncRunnerRun r p => Some (r, p)
  | _ => None
  end.

(** The state after [its] were appended to the call at position [i] of the
    history and [ev] was the one collaborator called. *)
Definition after_call (w : World) (i : nat) (its : list Iteration) (ev : Event)
  : World :=
  {| self := set__history (alter (extend its) i (_history (self w))) (self w);
     trace := (trace w ++ [ev])%list |}.

(** The retry budget that [parse] settles on: the caller's, else the one
    stored on the guard, else 0 without a target and 1 with one. *)
Definition parse_budget (g : Guard) (num_reasks : option Z)
  (llm_api : option Callable) : Z :=
  match num_reasks, _num_reasks g, llm_api with
  | Some n, _, _ => n
  | None, Some n, _ => n
  | None, None, None => 0
  | None, None, Some _ => 1
  end.

(** The invocation of [_execute] that [parse] makes when the keyword
    arguments hold the message history [history]. *)
Definition parsed_invocation (g : Guard) (llm_output : pyval)
  (args : list pyval) (metadata : option (gmap string pyval))
  (llm_api : option Callable) (num_reasks : option Z) (prompt_params : pyval)
  (full_schema_reask : option bool) (kwargs : gmap string pyval)
  (history : pyval) : ExecArgs :=
  {| args := args; llm_api := llm_api; llm_output := llm_output;
     prompt_params := prompt_params;
     num_reasks := Some (parse_budget g num_reasks llm_api);
     prompt := default (eo_prompt (_exec_opts g)) (kwargs !! "prompt");
     instructions :=
       default (eo_instructions (_exec_opts g)) (kwargs !! "instructions");
     msg_history := history;
     metadata := metadata;
     full_schema_reask := full_schema_reask;
     kwargs :=
       delete "msg_history" (delete "instructions" (delete "prompt" kwargs)) |}.

(** The path that [__add_validator] files a validator under. *)
Definition path_of (on : string) : string :=
  if String.eqb on "output" then "$" else on.

(** The list of validators holds what the validator map holds, each path
    being one entry of the map. *)
Definition validators_consistent (g : Guard) : Prop :=
  NoDup (map fst (_validator_map g))
  /\ Permutation (_validators g) (concat (dict_values (_validator_map g))).

(** The string syntax that [_fill_validator_map] builds for a reference. *)
Definition reference_syntax (str_of : pyval -> string)
  (ref : ValidatorReference) : string :=
  let serialized_args :=
    map (fun arg => "{" ++ str_of arg ++ "}") (dict_values (ref_kwargs ref)) in
  if (0 <? length serialized_args)%nat
  then ref_id ref ++ ": " ++ join " " serialized_args
  else ref_id ref.

(** The map holds a validator for the reference, at the path of the
    reference. *)
Definition covered (m : list (string * list Validator))
  (ref : ValidatorReference) : Prop :=
  List.filter (ref_matches ref) (default [] (dict_get m (ref_on ref))) <> [].

(** A computation that keeps a property of the guard, however it ends. *)
Definition keeps {A} (P : Guard -> Prop) (m : M A) : Prop :=
  forall w, P (self w) -> P (self (fst (m w))).

(** The body of the loop of [_fill_validator_map], for one reference. *)
Definition fill_reference (get_validator : ValidatorSpec -> result Validator)
  (str_of : pyval -> string) (ref : ValidatorReference) : M unit :=
  g <- get_self ;;
  let entry := default [] (dict_get (_validator_map g) (ref_on ref)) in
  match List.filter (ref_matches ref) entry with
  | _ :: _ => ret tt
  | [] =>
      v <- lift (get_validator
                   (SpecString (reference_syntax str_of ref) (ref_on_fail ref))) ;;
      modify_self (fun g =>
        set__validator_map
          (dict_set (_validator_map g) (ref_on ref) (entry ++ [v])%list) g)
  end.



(** ** Further instances *)

(** A remote service that answers with one session history of one event. *)
Definition remote_event : HistoryEvent :=
  {| h_instructions := PNone; h_prompt := Some (PStr "hi");
     h_output := PStr "ok"; h_parsed_output := PStr "ok";
     h_validated_output := PStr "ok"; h_reasks := None |}.

Definition remote_answer : ValidationOutput :=
  {| vo_result := true; vo_validated_output := PStr "ok";
     vo_raw_llm_response := PStr "ok";
     vo_session_history := Some [ {| history := Some [remote_event] |} ] |}.

Definition answering_service (_ : list Event) (_ : gmap string pyval)
  (_ : option pyval) : option ValidationOutput := Some remote_answer.


(** A guard for list outputs. *)
Definition list_guard : Guard :=
  {| validators := [];
     _num_reasks := None;
     _base_model := None;
     _tracer := None;
     _validator_map := [];
     _validators := [];
     _api_client := None;
     _allow_metrics_collection := Some false;
     _exec_opts := no_exec_opts;
     _output_type := LIST;
     _history := [] |}.


Definition lowercase_ref : ValidatorReference :=
  {| ref_id := "lowercase"; ref_on := "$"; ref_on_fail := "noop";
     ref_kwargs := [] |}.

(** A guard with the same reference twice and no validator resolved yet. *)
Definition referenced_guard : Guard :=
  set_validators [lowercase_ref; lowercase_ref]
    (set__validator_map [] (set__validators [] string_guard)).

Definition braces (_ : pyval) : string := "{}".

(** [parse("ok", msg_history=[], temperature=0)]. *)
Definition parse_kwargs : gmap string pyval :=
  {[ "msg_history" := PList []; "temperature" := PInt 0 ]}.

Definition run_call : Callable -> list pyval -> pyval -> option Z -> pyval ->
  pyval -> pyval -> option (gmap string pyval) -> option bool ->
  gmap string pyval -> M Returned :=
  __call__ openai_only api_enum as_is silent_service toolong_runner
    toolong_runner toolong_stream.

Definition run_parse : pyval -> list pyval -> option (gmap string pyval) ->
  option Callable -> option Z -> pyval -> option bool -> gmap string pyval ->
  M Returned :=
  parse openai_only api_enum as_is silent_service toolong_runner
    toolong_runner toolong_stream.


(** ** Properties *)
Section Properties.

Variable model_is_supported_server_side :
  option Callable -> list pyval -> gmap string pyval -> bool.
Variable get_validator : ValidatorSpec -> result Validator.
Variable str_of : pyval -> string.
Variable get_llm_api_enum : Callable -> pyval.
Variable from_rc_file : Credentials.
Variable rail_output_type : Guard -> result pyval.
Variable plain_value : pyval -> result pyval.
Variable api_validate :
  list Event -> gmap string pyval -> option pyval -> option ValidationOutput.
Variable runner_call : RunnerArgs -> Call -> pyval -> list Iteration * option exn.
Variable async_runner_run :
  RunnerArgs -> Call -> pyval -> list Iteration * option exn.
Variable stream_runner_call :
  RunnerArgs -> Call -> pyval -> list Iteration * result (list ValidationOutcome).

Local Abbreviation execute :=
  (_execute model_is_supported_server_side get_llm_api_enum plain_value
     api_validate runner_call async_runner_run stream_runner_call).
Local Abbreviation exec :=
  (__exec model_is_supported_server_side get_llm_api_enum plain_value
     api_validate runner_call async_runner_run stream_runner_call).
Local Abbreviation call_server :=
  (_call_server get_llm_api_enum plain_value api_validate).
Local Abbreviation exec_sync := (_exec_sync runner_call stream_runner_call).
Local Abbreviation exec_async := (_exec_async async_runner_run).
Local Abbreviation parse_output :=
  (parse model_is_supported_server_side get_llm_api_enum plain_value
     api_validate runner_call async_runner_run stream_runner_call).

(** *** Truth values *)

Lemma truthy_py_or (a b : pyval) : truthy (py_or a b) = truthy a || truthy b.
Proof. unfold py_or. destruct (truthy a) eqn:E; simpl; auto. Qed.

Lemma truthy_callable_None (f : option Callable) :
  truthy_callable f = false <-> f = None.
Proof. destruct f; simpl; split; congruence. Qed.

(** C2: when neither a target nor an output is supplied, or a target is
    supplied with no output, no prompt and no message history, [_execute]
    raises a RuntimeError and leaves the state as it found it: no call is
    recorded, no collaborator is called, no strategy is selected. *)
Theorem execute_rejects_missing_inputs (w : World) (a : ExecArgs) :
  (llm_api a = None /\ llm_output a = PNone)
  \/ (llm_api a <> None /\ llm_output a = PNone
      /\ prompt a = PNone /\ msg_history a = PNone) ->
  exists msg, execute a w = (w, Raise (RuntimeError msg)).
Proof.
  intros [[Hapi Hout] | (Hapi & Hout & Hp & Hm)]; unfold _execute.
  - rewrite Hapi, Hout. simpl. eexists. reflexivity.
  - destruct (llm_api a) as [f|]; [|congruence].
    rewrite Hout, Hp, Hm. simpl. eexists. reflexivity.
Qed.

(** C9: [parse] called without a [msg_history] keyword argument raises
    KeyError for that key and leaves the state as it found it. *)
Theorem parse_without_msg_history_raises (w : World) (llm_output : pyval)
  (args : list pyval) (metadata : option (gmap string pyval))
  (llm_api : option Callable) (num_reasks : option Z) (prompt_params : pyval)
  (full_schema_reask : option bool) (kwargs : gmap string pyval) :
  kwargs !! "msg_history" = None ->
  parse_output llm_output args metadata llm_api num_reasks prompt_params
    full_schema_reask kwargs w = (w, Raise (KeyError "msg_history")).
Proof.
  intros Hk. unfold parse, bind, get_self, pop_default, pop, lift. simpl.
  rewrite !lookup_delete_ne by discriminate.
  rewrite Hk. reflexivity.
Qed.


(** *** States that differ in their history only *)




























(** *** What each strategy does to the state *)




(** *** Routing *)

Lemma resolved_full_schema_reask_eq (g : Guard) (a : ExecArgs) :
  match full_schema_reask a with
  | Some b => b
  | None => match _base_model g with Some _ => true | None => false end
  end = resolved_full_schema_reask g a.
Proof.
  unfold resolved_full_schema_reask.
  destruct (full_schema_reask a); [reflexivity|].
  destruct (_base_model g); reflexivity.
Qed.

(** With a retry budget, [__exec] stores it, records the call and hands
    over to one of the three strategy methods. *)
Lemma exec_routes (w : World) (a : ExecArgs) (n : Z) :
  num_reasks a = Some n ->
  exec a w =
  (if match _api_client (self w) with Some _ => true | None => false end
      && model_is_supported_server_side (llm_api a) (args a) (kwargs a)
   then
     call_server (args a) (llm_output a) (llm_api a) (Some n) (prompt_params a)
       (Some ∅) (Some (resolved_full_schema_reask (self w) a))
       (Some (InHistory (length (_history (self w))))) (kwargs a)
   else if iscoroutinefunction (llm_api a) then
     exec_async (args a) (llm_api a) (llm_output a)
       (InHistory (length (_history (self w)))) (prompt_params a) n
       (metadata a) (resolved_full_schema_reask (self w) a) (prompt a)
       (instructions a) (msg_history a) (kwargs a)
   else
     exec_sync (args a) (llm_api a) (llm_output a)
       (InHistory (length (_history (self w)))) (prompt_params a) n
       (metadata a) (resolved_full_schema_reask (self w) a) (prompt a)
       (instructions a) (msg_history a) (kwargs a))
    (routing_state w a n).
Proof.
  intros Hn. unfold __exec, routing_state, recorded_inputs.
  rewrite <- (resolved_full_schema_reask_eq (self w) a).
  unfold bind, get_self, _set_num_reasks, modify_self, push_history. simpl.
  rewrite Hn. simpl.
  destruct (self w); simpl. reflexivity.
Qed.

(** Without a retry budget, [__exec] raises before it records or routes
    anything. *)
Lemma exec_without_budget (w : World) (a : ExecArgs) :
  num_reasks a = None ->
  exec a w =
  ({| self := set__num_reasks None (self w); trace := trace w |},
   Raise (RuntimeError
            "`num_reasks` is `None` after calling `configure()`. This should never happen.")).
Proof.
  intros Hn. unfold __exec, bind, get_self, _set_num_reasks, modify_self.
  simpl. rewrite Hn. simpl. reflexivity.
Qed.

(** Past the first check, [_execute] checks the metadata and runs
    [__exec]. *)
Lemma execute_checks_metadata (w : World) (a : ExecArgs) :
  inputs_supplied a = true ->
  execute a w =
  match verify_metadata_requirements (metadata a) (_validators (self w)) with
  | [] => exec a w
  | k :: ks =>
      (w, Raise (ValueError
                   ("Missing required metadata keys: " ++ join ", " (k :: ks))))
  end.
Proof.
  unfold inputs_supplied, _execute. intros Hin.
  rewrite truthy_py_or.
  destruct (truthy_callable (llm_api a)), (truthy (llm_output a));
    simpl in *; try discriminate; try rewrite Hin; simpl;
    unfold bind, get_self; simpl;
    destruct (verify_metadata_requirements _ _); reflexivity.
Qed.

(** Short of the first check, [_execute] raises at once. *)
Lemma execute_rejects_inputs (w : World) (a : ExecArgs) :
  inputs_supplied a = false ->
  exists msg, execute a w = (w, Raise (RuntimeError msg)).
Proof.
  unfold inputs_supplied, _execute. rewrite truthy_py_or.
  destruct (truthy_callable (llm_api a)), (truthy (llm_output a)),
    (truthy (prompt a)), (truthy (msg_history a));
    simpl; try discriminate; intros _; eexists; reflexivity.
Qed.





(** Either [_execute] raises before anything is recorded or called, or it
    runs [__exec] with a retry budget. *)
Lemma execute_cases (w : World) (a : ExecArgs) :
  (exists w' e,
     execute a w = (w', Raise e)
     /\ trace w' = trace w
     /\ _history (self w') = _history (self w))
  \/ (exists n, num_reasks a = Some n /\ execute a w = exec a w).
Proof.
  destruct (inputs_supplied a) eqn:Hin.
  - rewrite (execute_checks_metadata w a Hin).
    destruct (verify_metadata_requirements _ _);
      [|left; do 2 eexists; repeat split; reflexivity].
    destruct (num_reasks a) as [n|] eqn:Hn; [right; eauto|].
    left. rewrite (exec_without_budget w a Hn).
    do 2 eexists. split; [reflexivity|]. simpl.
    split; [reflexivity|]. destruct (self w); reflexivity.
  - left. destruct (execute_rejects_inputs w a Hin) as (msg & ->).
    do 2 eexists. repeat split; reflexivity.
Qed.





(** *** Missing metadata *)

Lemma string_app_assoc (a b c : string) : ((a ++ b) ++ c = a ++ b ++ c)%string.
Proof.
  induction a as [|ch a IH]; [reflexivity|].
  change (String ch ((a ++ b) ++ c) = String ch (a ++ b ++ c))%string.
  rewrite IH. reflexivity.
Qed.

Lemma string_app_nil_r (a : string) : (a ++ "" = a)%string.
Proof.
  induction a as [|ch a IH]; [reflexivity|].
  change (String ch (a ++ "") = String ch a)%string.
  rewrite IH. reflexivity.
Qed.

Lemma names_prefix (pre msg k : string) : names msg k -> names (pre ++ msg) k.
Proof.
  intros (p & q & ->). exists (pre ++ p)%string, q.
  symmetry. apply string_app_assoc.
Qed.

(** Every part of a joined string occurs in it. *)
Lemma names_join (sep : string) (parts : list string) (k : string) :
  In k parts -> names (join sep parts) k.
Proof.
  induction parts as [|p rest IH]; intros Hk; [destruct Hk|].
  destruct Hk as [->|Hk].
  - destruct rest as [|q rest]; simpl.
    + exists ""%string, ""%string. rewrite string_app_nil_r. reflexivity.
    + exists ""%string, (sep ++ join sep (q :: rest))%string. reflexivity.
  - destruct rest as [|q rest]; [destruct Hk|].
    change (join sep (p :: q :: rest))
      with (p ++ sep ++ join sep (q :: rest))%string.
    apply names_prefix, names_prefix, IH, Hk.
Qed.

(** The keys that [verify_metadata_requirements] returns are the required
    keys that the metadata lacks. *)
Lemma verify_metadata_requirements_In (md : option (gmap string pyval))
  (vs : list Validator) (k : string) :
  In k (verify_metadata_requirements md vs) <->
  (exists v, In v vs /\ In k (required_metadata_keys v))
  /\ default ∅ md !! k = None.
Proof.
  unfold verify_metadata_requirements.
  rewrite filter_In, in_concat. split.
  - intros [(ks & Hks & Hk) Hlack]. apply in_map_iff in Hks.
    destruct Hks as (v & <- & Hv). split; [eauto|].
    destruct (default ∅ md !! k); [discriminate | reflexivity].
  - intros [(v & Hv & Hk) Hlack]. split.
    + exists (required_metadata_keys v). split; [|assumption].
      apply in_map. assumption.
    + rewrite Hlack. reflexivity.
Qed.

(** C3: when the first check passes and some validator requires a metadata
    key that the supplied metadata map lacks, [_execute] raises a ValueError
    and leaves the state as it found it; the message names every required
    key that the map lacks. *)
Theorem execute_names_missing_metadata (w : World) (a : ExecArgs)
  (md : gmap string pyval) :
  inputs_supplied a = true ->
  metadata a = Some md ->
  (exists v k, In v (_validators (self w))
               /\ In k (required_metadata_keys v) /\ md !! k = None) ->
  exists msg,
    execute a w = (w, Raise (ValueError msg))
    /\ forall v k, In v (_validators (self w)) ->
                   In k (required_metadata_keys v) -> md !! k = None ->
                   names msg k.
Proof.
  intros Hin Hmd (v0 & k0 & Hv0 & Hk0 & Hlack0).
  rewrite (execute_checks_metadata w a Hin).
  destruct (verify_metadata_requirements (metadata a) (_validators (self w)))
    as [|k ks] eqn:E.
  - exfalso.
    assert (H : In k0 (verify_metadata_requirements (metadata a)
                         (_validators (self w)))).
    { apply verify_metadata_requirements_In. rewrite Hmd. simpl. eauto. }
    rewrite E in H. destruct H.
  - eexists. split; [reflexivity|]. intros v k' Hv Hk Hlack.
    apply names_prefix, names_join. rewrite <- E.
    apply verify_metadata_requirements_In. rewrite Hmd. simpl. eauto.
Qed.

(** *** The validator map *)

Lemma no_empty_entry_dict_set (m : list (string * list Validator)) (k : string)
  (vs : list Validator) :
  no_empty_entry m -> vs <> [] -> no_empty_entry (dict_set m k vs).
Proof.
  intros Hm Hvs. induction Hm as [|[k' vs'] m' Hk' Hm' IH]; simpl.
  - repeat constructor. assumption.
  - destruct (String.eqb k k'); constructor; assumption.
Qed.

Lemma no_empty_entry_append_at (m : list (string * list Validator))
  (on : string) (v : Validator) :
  no_empty_entry m -> no_empty_entry (append_at m on v).
Proof.
  intros Hm. induction Hm as [|[k vs] m' Hk Hm' IH]; simpl; constructor;
    try assumption.
  simpl. destruct (String.eqb on k); simpl; [|assumption].
  destruct vs; discriminate.
Qed.

(** The two statements of [__add_validator] on the map, taken together. *)
Lemma no_empty_entry_add (m : list (string * list Validator)) (on : string)
  (v : Validator) :
  no_empty_entry m ->
  no_empty_entry (append_at (dict_set m on (default [] (dict_get m on))) on v).
Proof.
  intros Hm. induction Hm as [|[k vs] m' Hk Hm' IH]; simpl.
  - rewrite String.eqb_refl. repeat constructor. discriminate.
  - destruct (String.eqb on k) eqn:E; simpl.
    + rewrite String.eqb_refl. constructor.
      * simpl. destruct vs; discriminate.
      * apply no_empty_entry_append_at. assumption.
    + rewrite E. constructor; assumption.
Qed.

Lemma keeps_map_ret {A} (a : A) : keeps_map (ret a).
Proof. intros w H. exact H. Qed.

Lemma keeps_map_raise {A} (e : exn) : keeps_map (@raise A e).
Proof. intros w H. exact H. Qed.

Lemma keeps_map_lift {A} (r : result A) : keeps_map (lift r).
Proof. destruct r; [apply keeps_map_ret | apply keeps_map_raise]. Qed.

Lemma keeps_map_get_self : keeps_map get_self.
Proof. intros w H. exact H. Qed.

Lemma keeps_map_emit (e : Event) : keeps_map (emit e).
Proof. intros w H. exact H. Qed.

Lemma keeps_map_bind {A B} (m : M A) (k : A -> M B) :
  keeps_map m -> (forall a, keeps_map (k a)) -> keeps_map (bind m k).
Proof.
  intros Hm Hk w Hw. unfold bind. specialize (Hm w Hw).
  destruct (m w) as [w' [a|e]]; simpl in *; [apply Hk|]; assumption.
Qed.

Lemma keeps_map_modify (f : Guard -> Guard) :
  (forall g, no_empty_entry (_validator_map g) ->
             no_empty_entry (_validator_map (f g))) ->
  keeps_map (modify_self f).
Proof. intros Hf w Hw. simpl. apply Hf. assumption. Qed.

Lemma keeps_map_for_each {A} (l : list A) (body : A -> M unit) :
  (forall x, keeps_map (body x)) -> keeps_map (for_each l body).
Proof.
  intros Hbody. induction l as [|x l IH]; simpl.
  - apply keeps_map_ret.
  - apply keeps_map_bind; [apply Hbody | intros _; apply IH].
Qed.

Lemma keeps_map_fill_validator_map :
  keeps_map (_fill_validator_map get_validator str_of).
Proof.
  unfold _fill_validator_map.
  apply keeps_map_bind; [apply keeps_map_get_self|]. intros g.
  apply keeps_map_for_each. intros ref.
  apply keeps_map_bind; [apply keeps_map_get_self|]. intros g'.
  destruct (List.filter _ _); [|apply keeps_map_ret].
  apply keeps_map_bind; [apply keeps_map_lift|]. intros v.
  apply keeps_map_modify. intros g0 Hg0. destruct g0; simpl in *.
  apply no_empty_entry_dict_set; [assumption|].
  destruct (default [] _); discriminate.
Qed.

Lemma keeps_map_add_validator (validator : Validator) (on : string) :
  keeps_map (__add_validator validator on).
Proof.
  intros w Hw. unfold __add_validator, bind, get_self, modify_self, raise.
  simpl. destruct (negb (OutputTypes_eqb _ _)); simpl; [assumption|].
  destruct (self w); simpl in *. apply no_empty_entry_add. assumption.
Qed.

Lemma keeps_map_use (validator : ValidatorSpec) (on : string) :
  keeps_map (use get_validator validator on).
Proof.
  unfold use. apply keeps_map_bind; [apply keeps_map_lift|].
  intros v. apply keeps_map_add_validator.
Qed.

Lemma keeps_map_use_many (validators : list ValidatorSpec) (on : string) :
  keeps_map (use_many get_validator rail_output_type validators on).
Proof.
  unfold use_many. apply keeps_map_bind; [apply keeps_map_get_self|].
  intros g. apply keeps_map_bind; [apply keeps_map_lift|]. intros ot.
  destruct (negb _); [apply keeps_map_raise|].
  apply keeps_map_for_each. intros v.
  apply keeps_map_bind; [apply keeps_map_lift|].
  intros v'. apply keeps_map_add_validator.
Qed.

(** C7: the validator map has no empty entry after [__init__], whatever the
    guard was before, and [_fill_validator_map], [__add_validator], [use] and
    [use_many] keep it so, whether they return or raise. *)
Theorem validator_map_has_no_empty_entry (w : World) :
  (forall validators api_key,
     no_empty_entry
       (_validator_map
          (self (fst (__init__ get_validator str_of validators api_key w)))))
  /\ (no_empty_entry (_validator_map (self w)) ->
      no_empty_entry
        (_validator_map (self (fst (_fill_validator_map get_validator str_of w))))
      /\ (forall validator on,
            no_empty_entry
              (_validator_map (self (fst (__add_validator validator on w)))))
      /\ (forall validator on,
            no_empty_entry
              (_validator_map (self (fst (use get_validator validator on w)))))
      /\ (forall validators on,
            no_empty_entry
              (_validator_map
                 (self (fst (use_many get_validator rail_output_type
                               validators on w)))))).
Proof.
  split.
  - intros refs api_key.
    assert (Htail : keeps_map
      (modify_self (set__validators []) ;;
       _fill_validator_map get_validator str_of ;;
       _fill_validators ;;
       modify_self (set__history []) ;;
       match api_key with
       | Some key => modify_self (set__api_client (Some key)) ;; emit UpsertGuard
       | None => ret tt
       end)).
    { apply keeps_map_bind;
        [apply keeps_map_modify; intros g Hg; destruct g; exact Hg|]. intros _.
      apply keeps_map_bind; [apply keeps_map_fill_validator_map|]. intros _.
      apply keeps_map_bind;
        [apply keeps_map_modify; intros g Hg; destruct g; exact Hg|]. intros _.
      apply keeps_map_bind;
        [apply keeps_map_modify; intros g Hg; destruct g; exact Hg|]. intros _.
      destruct api_key; [|apply keeps_map_ret].
      apply keeps_map_bind;
        [apply keeps_map_modify; intros g Hg; destruct g; exact Hg|]. intros _.
      apply keeps_map_emit. }
    apply (Htail
             {| self := set__validator_map [] (set_validators refs (self w));
                trace := trace w |}).
    simpl. constructor.
  - intros Hw. split; [apply keeps_map_fill_validator_map; assumption|].
    split; [intros v on; apply keeps_map_add_validator; assumption|].
    split; [intros v on; apply keeps_map_use; assumption|].
    intros vs on; apply keeps_map_use_many; assumption.
Qed.

(** *** The outcome of a call *)

(** C8: building the outcome from a call returns without changing the
    state, so the call is as it was; building it twice gives the same
    outcome twice; and the outcome is determined by the last Iteration of
    the call alone.  In [_exec_sync], when the runner ends normally, the
    outcome returned is the one built from the call log, and the state is
    the one the runner left. *)
Theorem from_guard_history_is_pure (w : World) (r : CallRef) :
  (exists o,
     from_guard_history r w = (w, Ok o)
     /\ (o1 <- from_guard_history r ;;
         o2 <- from_guard_history r ;;
         ret (o1, o2)) w = (w, Ok (o, o))
     /\ forall w' r',
          last_iteration (call_of w' r') = last_iteration (call_of w r) ->
          from_guard_history r' w' = (w', Ok o))
  /\ (forall args llm_api llm_output i prompt_params num_reasks metadata
             full_schema_reask prompt instructions msg_history kwargs its,
        let runner :=
          runner_args (self w)
            match llm_api with
            | Some f => Some (get_llm_ask f args kwargs)
            | None => None
            end num_reasks prompt instructions msg_history metadata llm_output
            full_schema_reask in
        let w1 :=
          {| self :=
               set__history (alter (extend its) i (_history (self w))) (self w);
             trace := (trace w ++ [RunnerCall runner prompt_params])%list |} in
        truthy (default (PBool false) (kwargs !! "stream")) = false ->
        runner_call runner (call_of w (InHistory i)) prompt_params = (its, None) ->
        exists o,
          exec_sync args llm_api llm_output (InHistory i) prompt_params
            num_reasks metadata full_schema_reask prompt instructions
            msg_history kwargs w = (w1, Ok (Outcome o))
          /\ from_guard_history (InHistory i) w1 = (w1, Ok o)).
Proof.
  split.
  - eexists. split; [reflexivity|]. split; [reflexivity|].
    intros w' r' Hlast.
    unfold from_guard_history, read_call, bind, get_self, ret.
    simpl. fold (call_of w' r'). fold (call_of w r). rewrite Hlast.
    reflexivity.
  - intros args llm_api llm_output i prompt_params num_reasks metadata
      full_schema_reask prompt instructions msg_history kwargs its runner w1
      Hstream Hrun.
    unfold _exec_sync. change (bind get_self ?k w) with (k (self w) w).
    cbv beta zeta. rewrite Hstream. fold runner.
    unfold bind, emit, read_call, get_self, ret. simpl.
    unfold call_of in Hrun. rewrite Hrun. simpl.
    eexists. split; reflexivity.
Qed.

End Properties.

(** ** Further properties of the methods *)
Section Coverage.

Variable model_is_supported_server_side :
  option Callable -> list pyval -> gmap string pyval -> bool.
Variable get_validator : ValidatorSpec -> result Validator.
Variable str_of : pyval -> string.
Variable get_llm_api_enum : Callable -> pyval.
Variable from_rc_file : Credentials.
Variable rail_output_type : Guard -> result pyval.
Variable plain_value : pyval -> result pyval.
Variable api_validate :
  list Event -> gmap string pyval -> option pyval -> option ValidationOutput.
Variable runner_call : RunnerArgs -> Call -> pyval -> list Iteration * option exn.
Variable async_runner_run :
  RunnerArgs -> Call -> pyval -> list Iteration * option exn.
Variable stream_runner_call :
  RunnerArgs -> Call -> pyval -> list Iteration * result (list ValidationOutcome).
Variable json_dumps : pyval -> string.

Local Abbreviation execute :=
  (_execute model_is_supported_server_side get_llm_api_enum plain_value
     api_validate runner_call async_runner_run stream_runner_call).
Local Abbreviation exec :=
  (__exec model_is_supported_server_side get_llm_api_enum plain_value
     api_validate runner_call async_runner_run stream_runner_call).
Local Abbreviation call_server :=
  (_call_server get_llm_api_enum plain_value api_validate).
Local Abbreviation exec_sync := (_exec_sync runner_call stream_runner_call).
Local Abbreviation exec_async := (_exec_async async_runner_run).
Local Abbreviation parse_output :=
  (parse model_is_supported_server_side get_llm_api_enum plain_value
     api_validate runner_call async_runner_run stream_runner_call).
Local Abbreviation call_guard :=
  (__call__ model_is_supported_server_side get_llm_api_enum plain_value
     api_validate runner_call async_runner_run stream_runner_call).
Local Abbreviation validate_output :=
  (validate model_is_supported_server_side get_llm_api_enum plain_value
     api_validate runner_call async_runner_run stream_runner_call).
Local Abbreviation invoke_guard :=
  (invoke model_is_supported_server_side str_of get_llm_api_enum plain_value
     api_validate runner_call async_runner_run stream_runner_call json_dumps).

(** *** Calling the guard *)

Lemma py_or_falsy (a b : pyval) : truthy a = false -> py_or a b = b.
Proof. unfold py_or. intros ->. reflexivity. Qed.

Lemma py_or_truthy (a b : pyval) : truthy a = true -> py_or a b = a.
Proof. unfold py_or. intros ->. reflexivity. Qed.

(** X1: [__call__] without a usable prompt, its own or the guard's, and without
    message history raises a RuntimeError, from its own check or from the
    one of [_execute], and leaves the state as it found it. *)
Theorem call_requires_prompt_or_history (w : World) (llm_api : Callable)
  (args : list pyval) (prompt_params : pyval) (num_reasks : option Z)
  (prompt instructions msg_history : pyval)
  (metadata : option (gmap string pyval)) (full_schema_reask : option bool)
  (kwargs : gmap string pyval) :
  truthy prompt = false ->
  truthy (eo_prompt (_exec_opts (self w))) = false ->
  truthy msg_history = false ->
  exists msg,
    call_guard llm_api args prompt_params num_reasks prompt instructions
      msg_history metadata full_schema_reask kwargs w
    = (w, Raise (RuntimeError msg)).
Proof.
  intros Hp Hd Hm. unfold __call__.
  change (bind get_self ?k w) with (k (self w) w). cbv beta zeta.
  rewrite (py_or_falsy prompt _ Hp), (py_or_falsy msg_history _ Hm).
  destruct (eo_prompt (_exec_opts (self w))) as [|b|z|s|l|d] eqn:E;
    [eexists; reflexivity| | | | |];
    unfold bind, ret; simpl; unfold _execute; simpl;
    rewrite truthy_py_or, Hd; simpl; eexists; reflexivity.
Qed.

(** *** The history under one invocation *)

Lemma extend_nil (c : Call) : extend [] c = c.
Proof. destruct c. unfold extend. simpl. rewrite app_nil_r. reflexivity. Qed.

Lemma extend_extend (a b : list Iteration) (c : Call) :
  extend b (extend a c) = extend (a ++ b) c.
Proof. unfold extend. simpl. rewrite app_assoc. reflexivity. Qed.

Lemma set_history_same (g : Guard) : set__history (_history g) g = g.
Proof. destruct g; reflexivity. Qed.

Lemma set_history_twice (h h' : list Call) (g : Guard) :
  set__history h' (set__history h g) = set__history h' g.
Proof. destruct g; reflexivity. Qed.

Lemma history_set_history (h : list Call) (g : Guard) :
  _history (set__history h g) = h.
Proof. destruct g; reflexivity. Qed.

(** The loop over the remote session history appends to the call log what
    [remote_iterations] computes, and nothing else changes; the call log
    stays the same object of the history. *)
Lemma merge_session_history_state (mk : HistoryEvent -> result Iteration)
  (session_history : list RemoteHistory) (i : nat) (w : World) :
  (i < length (_history (self w)))%nat ->
  merge_session_history mk session_history (InHistory i) w
  = ({| self :=
          set__history
            (alter (extend (fst (remote_iterations mk session_history))) i
               (_history (self w))) (self w);
        trace := trace w |},
     match snd (remote_iterations mk session_history) with
     | None => Ok (InHistory i)
     | Some e => Raise e
     end).
Proof.
  revert w. induction session_history as [|h rest IH]; intros w Hi; simpl.
  - rewrite (list_alter_id _ _ _ extend_nil), set_history_same.
    destruct w; reflexivity.
  - destruct (history h) as [events|]; [|apply IH; assumption].
    destruct (map_result mk events) as [its|e]; simpl.
    + unfold bind at 1. simpl. unfold bind at 1. simpl.
      match goal with |- _ ?w0 = _ => set (w1 := w0) end.
      assert (Hlen : length (_history (self w1)) = length (_history (self w)))
        by (subst w1; simpl; rewrite ?history_set_history, length_alter;
            reflexivity).
      change (bind get_self ?k w1) with (k (self w1) w1). cbv beta.
      destruct (length (_history (self w1)) =? 0)%nat eqn:E;
        [apply Nat.eqb_eq in E; lia|].
      change (bind (ret ?r) ?k w1) with (k r w1). cbv beta.
      rewrite IH by lia.
      destruct (remote_iterations mk rest) as [more err]. subst w1. simpl.
      rewrite ?history_set_history, set_history_twice, list_alter_alter_eq.
      f_equal. f_equal. f_equal.
      apply list_alter_ext; [|reflexivity]. intros c _. apply extend_extend.
    + unfold bind. simpl.
      rewrite (list_alter_id _ _ _ extend_nil), set_history_same.
      destruct w; reflexivity.
Qed.

Lemma session_history_default (o : option (list RemoteHistory)) :
  match o with Some (h :: t) => h :: t | _ => [] end = default [] o.
Proof. destruct o as [[|h t]|]; reflexivity. Qed.

(** What [_call_server] does on an answer of the remote service. *)
Lemma call_server_merges_remote_history_aux (w : World) (args : list pyval)
  (llm_output : pyval) (llm_api : option Callable) (num_reasks : option Z)
  (prompt_params : pyval) (metadata : option (gmap string pyval))
  (full_schema_reask : option bool) (i : nat) (kwargs : gmap string pyval)
  (answer : ValidationOutput) :
  let payload :=
    server_payload get_llm_api_enum args kwargs llm_output num_reasks
      prompt_params llm_api in
  let merged :=
    remote_iterations
      (iteration_of_event plain_value
         match llm_api with
         | Some f => Some (get_llm_ask f [] ∅)
         | None => None
         end llm_output prompt_params num_reasks metadata full_schema_reask)
      (default [] (vo_session_history answer)) in
  _api_client (self w) <> None ->
  (i < length (_history (self w)))%nat ->
  api_validate (trace w) payload (kwargs !! "api_key") = Some answer ->
  call_server args llm_output llm_api num_reasks prompt_params metadata
    full_schema_reask (Some (InHistory i)) kwargs w
  = (after_call w i (fst merged) (RemoteValidate payload (kwargs !! "api_key")),
     match snd merged with
     | Some e => Raise e
     | None =>
         Ok (Outcome
               {| raw_llm_output := vo_raw_llm_response answer;
                  validated_output := vo_validated_output answer;
                  validation_passed := vo_result answer;
                  error := None |})
     end).
Proof.
  intros payload merged Hclient Hi Hanswer. unfold _call_server.
  change (bind get_self ?k w) with (k (self w) w). cbv beta.
  destruct (_api_client (self w)); [|congruence]. cbv zeta.
  change (bind get_trace ?k w) with (k (trace w) w). cbv beta.
  fold payload. rewrite Hanswer. rewrite session_history_default.
  unfold bind at 1. unfold emit at 1. unfold bind at 1.
  change (default (Detached empty_call) (Some (InHistory i)))
    with (InHistory i).
  rewrite merge_session_history_state by exact Hi.
  assert (Hadapter :
    match llm_api with
    | Some f =>
        Some (if iscoroutinefunction (Some (get_llm_ask f [] ∅))
              then get_async_llm_ask (get_llm_ask f [] ∅) [] ∅
              else get_llm_ask f [] ∅)
    | None => None
    end
    = match llm_api with
      | Some f => Some (get_llm_ask f [] ∅)
      | None => None
      end) by (destruct llm_api; reflexivity).
  rewrite Hadapter. fold merged.
  destruct (snd merged); reflexivity.
Qed.


(** The state that [_exec_sync] leaves: what the runner appended is on the
    call log, and the runner was the one collaborator called. *)
Lemma exec_sync_state (args : list pyval) (llm_api : option Callable)
  (llm_output : pyval) (i : nat) (prompt_params : pyval) (num_reasks : Z)
  (metadata : option (gmap string pyval)) (full_schema_reask : bool)
  (prompt instructions msg_history : pyval) (kwargs : gmap string pyval)
  (w : World) :
  let runner :=
    runner_args (self w)
      match llm_api with
      | Some f => Some (get_llm_ask f args kwargs)
      | None => None
      end num_reasks prompt instructions msg_history metadata llm_output
      full_schema_reask in
  let call := call_of w (InHistory i) in
  fst (exec_sync args llm_api llm_output (InHistory i) prompt_params num_reasks
         metadata full_schema_reask prompt instructions msg_history kwargs w)
  = if truthy (default (PBool false) (kwargs !! "stream"))
    then after_call w i (fst (stream_runner_call runner call prompt_params))
           (StreamRunnerCall runner prompt_params)
    else after_call w i (fst (runner_call runner call prompt_params))
           (RunnerCall runner prompt_params).
Proof.
  intros runner call. unfold _exec_sync.
  change (bind get_self ?k w) with (k (self w) w). cbv beta zeta.
  fold runner.
  unfold call, call_of.
  destruct (truthy (default (PBool false) (kwargs !! "stream")));
    unfold bind, emit, read_call, get_self, ret; simpl.
  - destruct (stream_runner_call runner _ prompt_params) as [its [os|e]];
      reflexivity.
  - destruct (runner_call runner _ prompt_params) as [its [e|]];
      reflexivity.
Qed.

Lemma exec_async_state (args : list pyval) (llm_api : option Callable)
  (llm_output : pyval) (i : nat) (prompt_params : pyval) (num_reasks : Z)
  (metadata : option (gmap string pyval)) (full_schema_reask : bool)
  (prompt instructions msg_history : pyval) (kwargs : gmap string pyval)
  (w : World) :
  let runner :=
    runner_args (self w)
      match llm_api with
      | Some f => Some (get_async_llm_ask f args kwargs)
      | None => None
      end num_reasks prompt instructions msg_history metadata llm_output
      full_schema_reask in
  let call := call_of w (InHistory i) in
  fst (exec_async args llm_api llm_output (InHistory i) prompt_params num_reasks
         metadata full_schema_reask prompt instructions msg_history kwargs w)
  = after_call w i (fst (async_runner_run runner call prompt_params))
      (AsyncRunnerRun runner prompt_params).
Proof.
  intros runner call. unfold _exec_async.
  change (bind get_self ?k w) with (k (self w) w). cbv beta zeta.
  fold runner. unfold call, call_of.
  unfold bind, emit, read_call, get_self, ret; simpl.
  destruct (async_runner_run runner _ prompt_params) as [its [e|]];
    reflexivity.
Qed.

Lemma call_server_state (args : list pyval) (llm_output : pyval)
  (llm_api : option Callable) (num_reasks : option Z) (prompt_params : pyval)
  (metadata : option (gmap string pyval)) (full_schema_reask : option bool)
  (i : nat) (kwargs : gmap string pyval) (w : World) :
  _api_client (self w) <> None ->
  (i < length (_history (self w)))%nat ->
  exists its,
    fst (call_server args llm_output llm_api num_reasks prompt_params metadata
           full_schema_reask (Some (InHistory i)) kwargs w)
    = after_call w i its
        (RemoteValidate
           (server_payload get_llm_api_enum args kwargs llm_output num_reasks
              prompt_params llm_api) (kwargs !! "api_key")).
Proof.
  intros Hclient Hi.
  destruct (api_validate (trace w)
              (server_payload get_llm_api_enum args kwargs llm_output
                 num_reasks prompt_params llm_api) (kwargs !! "api_key"))
    as [answer|] eqn:E.
  - eexists.
    rewrite (call_server_merges_remote_history_aux w args llm_output llm_api
               num_reasks prompt_params metadata full_schema_reask i kwargs
               answer Hclient Hi E).
    reflexivity.
  - exists []. unfold _call_server.
    change (bind get_self ?k w) with (k (self w) w). cbv beta.
    destruct (_api_client (self w)); [|congruence]. cbv zeta.
    change (bind get_trace ?k w) with (k (trace w) w). cbv beta.
    rewrite E. unfold after_call, bind, emit, ret. simpl.
    rewrite (list_alter_id _ _ _ extend_nil), set_history_same. reflexivity.
Qed.


(** The state that [__exec] leaves and the collaborator it called, with
    what that collaborator was given. *)
Lemma exec_state (w : World) (a : ExecArgs) (n : Z) :
  num_reasks a = Some n ->
  exists its ev,
    fst (exec a w)
    = after_call (routing_state w a n) (length (_history (self w))) its ev
    /\ strategy_of ev
       = Some (select_strategy model_is_supported_server_side (self w) a)
    /\ (forall r p, event_runner_args ev = Some (r, p) ->
          p = prompt_params a
          /\ r = runner_args (self (routing_state w a n))
                   match llm_api a with
                   | Some f =>
                       Some (if iscoroutinefunction (llm_api a)
                             then get_async_llm_ask f (args a) (kwargs a)
                             else get_llm_ask f (args a) (kwargs a))
                   | None => None
                   end n (prompt a) (instructions a) (msg_history a)
                   (metadata a) (llm_output a)
                   (resolved_full_schema_reask (self w) a))
    /\ (forall payload key, ev = RemoteValidate payload key ->
          payload = server_payload get_llm_api_enum (args a) (kwargs a)
                      (llm_output a) (Some n) (prompt_params a) (llm_api a)
          /\ key = kwargs a !! "api_key").
Proof.
  intros Hn. rewrite (exec_routes _ _ _ _ _ _ _ w a n Hn).
  unfold select_strategy.
  assert (Hclient : _api_client (self (routing_state w a n)) = _api_client (self w))
    by (unfold routing_state; simpl; destruct (self w); reflexivity).
  assert (Hlen : (length (_history (self w))
                  < length (_history (self (routing_state w a n))))%nat).
  { unfold routing_state. simpl. rewrite ?history_set_history, length_app.
    simpl. lia. }
  destruct (_api_client (self w)) as [client|] eqn:Eclient; simpl;
    [destruct (model_is_supported_server_side _ _ _); simpl|].
  - destruct (call_server_state (args a) (llm_output a) (llm_api a) (Some n)
                (prompt_params a) (Some ∅)
                (Some (resolved_full_schema_reask (self w) a))
                (length (_history (self w))) (kwargs a) (routing_state w a n))
      as (its & Hst); [rewrite Hclient; discriminate | exact Hlen |].
    exists its. eexists. split; [exact Hst|]. split; [reflexivity|].
    split; [intros r p [=] | intros payload key [= <- <-]; auto].
  - destruct (iscoroutinefunction (llm_api a)) eqn:Eco.
    + do 2 eexists. split; [apply exec_async_state|]. split; [reflexivity|].
      split; [intros r p [= <- <-]; split; reflexivity | intros ? ? [=]].
    + rewrite exec_sync_state.
      destruct (truthy (default (PBool false) (kwargs a !! "stream")));
        do 2 eexists; (split; [reflexivity|]); (split; [reflexivity|]);
        (split; [intros r p [= <- <-]; split; reflexivity | intros ? ? [=]]).
  - destruct (iscoroutinefunction (llm_api a)) eqn:Eco.
    + do 2 eexists. split; [apply exec_async_state|]. split; [reflexivity|].
      split; [intros r p [= <- <-]; split; reflexivity | intros ? ? [=]].
    + rewrite exec_sync_state.
      destruct (truthy (default (PBool false) (kwargs a !! "stream")));
        do 2 eexists; (split; [reflexivity|]); (split; [reflexivity|]);
        (split; [intros r p [= <- <-]; split; reflexivity | intros ? ? [=]]).
Qed.








(** *** Entry points *)




(** With a [msg_history] keyword argument, [parse] is [_execute] with a
    retry budget and without the three keyword arguments it takes out. *)
Lemma parse_is_execute (w : World) (llm_output : pyval) (args : list pyval)
  (metadata : option (gmap string pyval)) (llm_api : option Callable)
  (num_reasks : option Z) (prompt_params : pyval)
  (full_schema_reask : option bool) (kwargs : gmap string pyval)
  (history : pyval) :
  kwargs !! "msg_history" = Some history ->
  parse_output llm_output args metadata llm_api num_reasks prompt_params
    full_schema_reask kwargs w
  = execute
      (parsed_invocation (self w) llm_output args metadata llm_api num_reasks
         prompt_params full_schema_reask kwargs history) w.
Proof.
  intros Hk. unfold parse, parsed_invocation, parse_budget.
  change (bind get_self ?k w) with (k (self w) w). cbv beta zeta.
  unfold pop_default, pop. cbv beta iota zeta.
  rewrite !lookup_delete_ne by discriminate. rewrite Hk.
  destruct num_reasks, (_num_reasks (self w)), llm_api; reflexivity.
Qed.


(** X6: [parse] of an empty output (or of [None]) without a target raises the
    RuntimeError of the first check, as if no output had been given, and
    changes nothing. *)
Theorem parse_rejects_empty_output (w : World) (llm_output : pyval)
  (args : list pyval) (metadata : option (gmap string pyval))
  (num_reasks : option Z) (prompt_params : pyval)
  (full_schema_reask : option bool) (kwargs : gmap string pyval) :
  truthy llm_output = false ->
  is_Some (kwargs !! "msg_history") ->
  parse_output llm_output args metadata None num_reasks prompt_params
    full_schema_reask kwargs w
  = (w, Raise (RuntimeError "'llm_api' or 'llm_output' must be provided!")).
Proof.
  intros Hout [history Hk]. rewrite (parse_is_execute _ _ _ _ _ _ _ _ _ _ Hk).
  unfold _execute. simpl. rewrite Hout. reflexivity.
Qed.




(** *** Configuration and the remote client *)

(** X10: [configure] applies the tracer and the metrics flag it is given; it
    raises exactly when the flag is given as [True], with an
    UnboundLocalError, and then the settings are applied all the same.  It
    never touches the validators, the history or the client, and calls no
    collaborator. *)
Theorem configure_raises_on_metrics_flag (w : World) (num_reasks : option Z)
  (tracer : option string) (allow_metrics_collection : option bool) :
  let w' := fst (configure from_rc_file num_reasks tracer
                   allow_metrics_collection w) in
  snd (configure from_rc_file num_reasks tracer allow_metrics_collection w)
  = match allow_metrics_collection with
    | Some true => Raise (UnboundLocalError "credentials")
    | _ => Ok tt
    end
  /\ _allow_metrics_collection (self w')
     = Some match allow_metrics_collection with
            | Some b => b
            | None => is_false (no_metrics from_rc_file)
            end
  /\ _tracer (self w')
     = match tracer with Some _ => tracer | None => _tracer (self w) end
  /\ _validator_map (self w') = _validator_map (self w)
  /\ _validators (self w') = _validators (self w)
  /\ _history (self w') = _history (self w)
  /\ _api_client (self w') = _api_client (self w)
  /\ trace w' = trace w.
Proof.
  unfold configure, _configure_telemtry, _set_num_reasks, _set_tracer, bind,
    modify_self, ret, raise.
  destruct (truthy_int num_reasks), tracer, allow_metrics_collection as [[|]|];
    simpl; try (destruct (is_false (no_metrics from_rc_file)); simpl);
    destruct (self w); simpl; repeat split; reflexivity.
Qed.

(** X11: A guard without API client never contacts the remote service:
    [upsert_guard] and [_call_server] raise a ValueError and change nothing,
    and whatever [_execute] calls is a local runner. *)
Theorem no_client_no_remote_call (w : World) :
  _api_client (self w) = None ->
  upsert_guard w = (w, Raise (ValueError "Guard does not have an api client!"))
  /\ (forall args llm_output llm_api num_reasks prompt_params metadata
             full_schema_reask call_log kwargs,
        call_server args llm_output llm_api num_reasks prompt_params metadata
          full_schema_reask call_log kwargs w
        = (w, Raise (ValueError "Guard does not have an api client!")))
  /\ (forall a,
        trace (fst (execute a w)) = trace w
        \/ exists ev r p,
             trace (fst (execute a w)) = (trace w ++ [ev])%list
             /\ event_runner_args ev = Some (r, p)).
Proof.
  intros Hclient. split; [|split].
  - unfold upsert_guard, bind, get_self. simpl. rewrite Hclient. reflexivity.
  - intros. unfold _call_server, bind, get_self. simpl. rewrite Hclient.
    reflexivity.
  - intros a.
    destruct (execute_cases model_is_supported_server_side get_llm_api_enum
                plain_value api_validate runner_call async_runner_run
                stream_runner_call w a)
      as [(w1 & e & Hrun & Ht & _) | (n & Hn & Hrun)]; rewrite Hrun.
    + left. exact Ht.
    + right. destruct (exec_state w a n Hn) as (its & ev & Hst & Hs & _).
      exists ev. rewrite Hst. simpl.
      unfold select_strategy in Hs. rewrite Hclient in Hs. simpl in Hs.
      destruct ev; simpl in *;
        try (do 2 eexists; split; reflexivity);
        repeat match type of Hs with
               | context [if ?b then _ else _] => destruct b
               end; discriminate.
Qed.

(** X12: [validate] with a positional argument raises a TypeError, and without
    [msg_history] among its keyword arguments a KeyError; [invoke], which
    calls it with the input only, therefore always raises that KeyError
    (on a guard whose execution options are set, as the factories do).
    Neither changes anything. *)
Theorem invoke_always_raises (w : World) :
  (forall input, invoke_guard input w = (w, Raise (KeyError "msg_history")))
  /\ (forall llm_output metadata llm_api num_reasks prompt_params
             full_schema_reask kwargs,
        kwargs !! "msg_history" = None ->
        validate_output llm_output [] metadata llm_api num_reasks prompt_params
          full_schema_reask kwargs w
        = (w, Raise (KeyError "msg_history")))
  /\ (forall llm_output arg args metadata llm_api num_reasks prompt_params
             full_schema_reask kwargs,
        exists msg,
          validate_output llm_output (arg :: args) metadata llm_api num_reasks
            prompt_params full_schema_reask kwargs w
          = (w, Raise (TypeError msg))).
Proof.
  assert (Hparse : forall llm_output metadata llm_api num_reasks prompt_params
                          full_schema_reask kwargs,
    kwargs !! "msg_history" = None ->
    validate_output llm_output [] metadata llm_api num_reasks prompt_params
      full_schema_reask kwargs w
    = (w, Raise (KeyError "msg_history"))).
  { intros ? ? ? ? ? ? kw Hk.
    unfold validate, parse, bind, get_self, pop_default, pop, lift. simpl.
    rewrite !lookup_delete_ne by discriminate. rewrite Hk. reflexivity. }
  split; [|split].
  - intros input. unfold invoke.
    destruct input as [v|content type]; cbv zeta iota beta;
      unfold bind at 1; rewrite Hparse by reflexivity; reflexivity.
  - exact Hparse.
  - intros. eexists. reflexivity.
Qed.



(** *** Adding validators *)

Lemma dict_get_set_eq {V} (m : list (string * V)) (k : string) (x : V) :
  dict_get (dict_set m k x) k = Some x.
Proof.
  induction m as [|[k' x'] m IH]; simpl.
  - rewrite String.eqb_refl. reflexivity.
  - destruct (String.eqb k k') eqn:E; simpl.
    + rewrite String.eqb_refl. reflexivity.
    + rewrite E. exact IH.
Qed.

Lemma dict_get_set_ne {V} (m : list (string * V)) (k k' : string) (x : V) :
  k <> k' -> dict_get (dict_set m k x) k' = dict_get m k'.
Proof.
  intros Hne. induction m as [|[k0 x0] m IH]; simpl.
  - destruct (String.eqb k' k) eqn:E; [|reflexivity].
    apply String.eqb_eq in E. congruence.
  - destruct (String.eqb k k0) eqn:E; simpl.
    + apply String.eqb_eq in E. subst k0.
      destruct (String.eqb k' k) eqn:E'; [|reflexivity].
      apply String.eqb_eq in E'. congruence.
    + destruct (String.eqb k' k0); [reflexivity | exact IH].
Qed.

Lemma dict_get_append_at (m : list (string * list Validator)) (on k : string)
  (v : Validator) :
  dict_get (append_at m on v) k
  = if String.eqb on k
    then option_map (fun vs => (vs ++ [v])%list) (dict_get m k)
    else dict_get m k.
Proof.
  induction m as [|[k0 x0] m IH]; simpl; [destruct (String.eqb on k); reflexivity|].
  destruct (String.eqb on k0) eqn:E0; simpl;
    destruct (String.eqb k k0) eqn:E; simpl.
  - apply String.eqb_eq in E0, E. subst. rewrite String.eqb_refl. reflexivity.
  - exact IH.
  - apply String.eqb_eq in E. subst k0. rewrite E0. reflexivity.
  - exact IH.
Qed.

Lemma dict_get_None_keys {V} (m : list (string * V)) (k : string) :
  dict_get m k = None <-> ~ In k (map fst m).
Proof.
  induction m as [|[k0 x0] m IH]; simpl; [tauto|].
  destruct (String.eqb k k0) eqn:E.
  - apply String.eqb_eq in E. subst. split; [discriminate | tauto].
  - apply String.eqb_neq in E. rewrite IH. split; [intros H [?|?]|]; intuition.
Qed.

Lemma keys_dict_set {V} (m : list (string * V)) (k : string) (x : V) :
  map fst (dict_set m k x)
  = match dict_get m k with
    | Some _ => map fst m
    | None => (map fst m ++ [k])%list
    end.
Proof.
  induction m as [|[k0 x0] m IH]; simpl; [reflexivity|].
  destruct (String.eqb k k0) eqn:E; simpl.
  - apply String.eqb_eq in E. subst. reflexivity.
  - rewrite IH. destruct (dict_get m k); reflexivity.
Qed.

Lemma keys_append_at (m : list (string * list Validator)) (on : string)
  (v : Validator) : map fst (append_at m on v) = map fst m.
Proof.
  induction m as [|[k0 x0] m IH]; simpl; [reflexivity|].
  rewrite IH. destruct (String.eqb on k0); reflexivity.
Qed.

Lemma NoDup_keys_dict_set {V} (m : list (string * V)) (k : string) (x : V) :
  NoDup (map fst m) -> NoDup (map fst (dict_set m k x)).
Proof.
  intros Hm. rewrite keys_dict_set. destruct (dict_get m k) eqn:E; [exact Hm|].
  apply NoDup_app. split; [exact Hm|]. split.
  - intros k' Hk' Hk. apply list_elem_of_In in Hk'.
    apply list_elem_of_In in Hk. destruct Hk as [<-|[]].
    apply dict_get_None_keys in E. contradiction.
  - apply NoDup_singleton.
Qed.

Lemma append_at_absent (m : list (string * list Validator)) (on : string)
  (v : Validator) : ~ In on (map fst m) -> append_at m on v = m.
Proof.
  induction m as [|[k0 x0] m IH]; simpl; [reflexivity|]. intros Hn.
  destruct (String.eqb on k0) eqn:E.
  - apply String.eqb_eq in E. exfalso. apply Hn. left. congruence.
  - rewrite IH; [reflexivity|]. intros H. apply Hn. right. exact H.
Qed.

(** What the two statements of [__add_validator] on the map add to the
    validators of the map. *)
Lemma concat_values_add (m : list (string * list Validator)) (on : string)
  (v : Validator) :
  NoDup (map fst m) ->
  Permutation
    (concat (dict_values
               (append_at (dict_set m on (default [] (dict_get m on))) on v)))
    (concat (dict_values m) ++ [v]).
Proof.
  induction m as [|[k x] m IH]; intros Hm; simpl.
  - rewrite String.eqb_refl. reflexivity.
  - apply NoDup_cons in Hm as [Hk Hm].
    destruct (String.eqb on k) eqn:E; simpl.
    + apply String.eqb_eq in E. subst k. rewrite String.eqb_refl. simpl.
      rewrite append_at_absent by (rewrite <- list_elem_of_In; exact Hk).
      unfold dict_values. rewrite <- !app_assoc.
      apply Permutation_app_head, Permutation_app_comm.
    + rewrite E. simpl. unfold dict_values in *. simpl.
      rewrite <- app_assoc. apply Permutation_app_head, IH, Hm.
Qed.

(** The state that [__add_validator] leaves on a string guard. *)
Lemma add_validator_state (validator : Validator) (on : string) (w : World) :
  _output_type (self w) = STRING ->
  __add_validator validator on w
  = ({| self :=
          set__validators (_validators (self w) ++ [validator])
            (set__validator_map
               (append_at
                  (dict_set (_validator_map (self w)) (path_of on)
                     (default [] (dict_get (_validator_map (self w)) (path_of on))))
                  (path_of on) validator)
               (set_validators
                  (validators (self w)
                   ++ [ {| ref_id := rail_alias validator;
                           ref_on := path_of on;
                           ref_on_fail := on_fail_descriptor validator;
                           ref_kwargs := get_args validator |} ])
                  (self w)));
        trace := trace w |}, Ok tt).
Proof.
  intros Hs. unfold __add_validator, bind, get_self, modify_self. simpl.
  rewrite Hs. simpl. unfold path_of. destruct (self w); reflexivity.
Qed.

Lemma keeps_ret {A} (P : Guard -> Prop) (a : A) : keeps P (ret a).
Proof. intros w H. exact H. Qed.

Lemma keeps_raise {A} (P : Guard -> Prop) (e : exn) : keeps P (@raise A e).
Proof. intros w H. exact H. Qed.

Lemma keeps_lift {A} (P : Guard -> Prop) (r : result A) : keeps P (lift r).
Proof. destruct r; [apply keeps_ret | apply keeps_raise]. Qed.

Lemma keeps_get_self (P : Guard -> Prop) : keeps P get_self.
Proof. intros w H. exact H. Qed.

Lemma keeps_bind {A B} (P : Guard -> Prop) (m : M A) (k : A -> M B) :
  keeps P m -> (forall a, keeps P (k a)) -> keeps P (bind m k).
Proof.
  intros Hm Hk w Hw. unfold bind. specialize (Hm w Hw).
  destruct (m w) as [w' [a|e]]; simpl in *; [apply Hk|]; assumption.
Qed.

Lemma keeps_for_each {A} (P : Guard -> Prop) (l : list A) (body : A -> M unit) :
  (forall x, keeps P (body x)) -> keeps P (for_each l body).
Proof.
  intros Hbody. induction l as [|x l IH]; simpl.
  - apply keeps_ret.
  - apply keeps_bind; [apply Hbody | intros _; apply IH].
Qed.

(** X14: [use] on a string guard with a validator that the registry resolves
    returns, and files the validator last under its path, [$] for [output]:
    the validators already under that path keep their order, every other
    path is as it was, the validator is last in the list of validators and
    its reference last in the list of references.  So [use] with [output]
    and with [$] do the same. *)
Theorem use_appends_validator (w : World) (spec : ValidatorSpec) (on : string)
  (validator : Validator) :
  let w' := fst (use get_validator spec on w) in
  let path := if String.eqb on "output" then "$"%string else on in
  _output_type (self w) = STRING ->
  get_validator spec = Ok validator ->
  snd (use get_validator spec on w) = Ok tt
  /\ dict_get (_validator_map (self w')) path
     = Some (default [] (dict_get (_validator_map (self w)) path) ++ [validator])%list
  /\ (forall k, k <> path ->
        dict_get (_validator_map (self w')) k
        = dict_get (_validator_map (self w)) k)
  /\ _validators (self w') = (_validators (self w) ++ [validator])%list
  /\ validators (self w')
     = (validators (self w)
        ++ [ {| ref_id := rail_alias validator; ref_on := path;
                ref_on_fail := on_fail_descriptor validator;
                ref_kwargs := get_args validator |} ])%list
  /\ _history (self w') = _history (self w)
  /\ trace w' = trace w
  /\ use get_validator spec "output" w = use get_validator spec "$" w.
Proof.
  intros w' path Hs Hv.
  assert (Hrun : forall on', use get_validator spec on' w
                             = __add_validator validator on' w)
    by (intros on'; unfold use, bind, lift; rewrite Hv; reflexivity).
  assert (Hsame : use get_validator spec "output" w = use get_validator spec "$" w)
    by (rewrite !Hrun, !(add_validator_state _ _ w Hs); reflexivity).
  subst w'. rewrite Hrun, (add_validator_state validator on w Hs).
  change (path_of on) with path. simpl.
  split; [reflexivity|].
  destruct (self w) eqn:Eg; simpl.
  split.
  - rewrite dict_get_append_at, String.eqb_refl, dict_get_set_eq. reflexivity.
  - split.
    + intros k Hk. rewrite dict_get_append_at.
      destruct (String.eqb path k) eqn:E;
        [apply String.eqb_eq in E; congruence|].
      apply dict_get_set_ne. congruence.
    + repeat split; first [reflexivity | exact Hsame].
Qed.

(** X15: On a guard whose output type is not the string type, [use] raises and
    adds nothing: the guard is as it was. *)
Theorem use_needs_string_guard (w : World) (spec : ValidatorSpec) (on : string) :
  _output_type (self w) <> STRING ->
  fst (use get_validator spec on w) = w
  /\ exists e, snd (use get_validator spec on w) = Raise e.
Proof.
  intros Hs. unfold use, bind, lift.
  destruct (get_validator spec) as [v|e]; simpl; [|eauto].
  unfold __add_validator, bind, get_self. simpl.
  destruct (_output_type (self w)); simpl; [congruence| |]; eauto.
Qed.

(** X16: The list of validators and the validator map hold the same validators:
    so it is after an [__init__] that returns, and [__add_validator], [use]
    and [use_many] keep it so, whether they return or raise. *)
Theorem validators_stay_consistent (w : World) :
  (forall validators api_key,
     snd (__init__ get_validator str_of validators api_key w) = Ok tt ->
     validators_consistent
       (self (fst (__init__ get_validator str_of validators api_key w))))
  /\ (validators_consistent (self w) ->
      (forall validator on,
         validators_consistent (self (fst (__add_validator validator on w))))
      /\ (forall spec on,
            validators_consistent (self (fst (use get_validator spec on w))))
      /\ (forall specs on,
            validators_consistent
              (self (fst (use_many get_validator rail_output_type specs on w))))).
Proof.
  assert (Hadd : forall validator on, keeps validators_consistent
                                        (__add_validator validator on)).
  { intros v on w0 [Hnodup Hperm].
    destruct (OutputTypes_eqb (_output_type (self w0)) STRING) eqn:Es.
    - assert (Hs : _output_type (self w0) = STRING)
        by (destruct (_output_type (self w0)); simpl in Es; congruence).
      rewrite (add_validator_state v on w0 Hs).
      unfold validators_consistent. simpl.
      destruct (self w0); simpl in *. split.
      + rewrite keys_append_at. apply NoDup_keys_dict_set. exact Hnodup.
      + rewrite concat_values_add by exact Hnodup.
        apply Permutation_app_tail. exact Hperm.
    - unfold __add_validator, bind, get_self. simpl. rewrite Es. simpl.
      split; assumption. }
  assert (Huse : forall spec on, keeps validators_consistent
                                   (use get_validator spec on)).
  { intros spec on. unfold use. apply keeps_bind; [apply keeps_lift|].
    intros v. apply Hadd. }
  split.
  - intros refs api_key Hok.
    set (w0 := {| self := set__validators []
                            (set__validator_map []
                               (set_validators refs (self w)));
                  trace := trace w |}).
    assert (Hnodup : keeps (fun g => NoDup (map fst (_validator_map g)))
                       (_fill_validator_map get_validator str_of)).
    { unfold _fill_validator_map.
      apply keeps_bind; [apply keeps_get_self|]. intros g.
      apply keeps_for_each. intros ref.
      apply keeps_bind; [apply keeps_get_self|]. intros g'.
      destruct (List.filter _ _); [|apply keeps_ret].
      apply keeps_bind; [apply keeps_lift|]. intros v w1 Hw1. simpl.
      destruct (self w1); simpl in *. apply NoDup_keys_dict_set. exact Hw1. }
    specialize (Hnodup w0).
    assert (Hinit : __init__ get_validator str_of refs api_key w
      = (_fill_validator_map get_validator str_of ;;
         _fill_validators ;;
         modify_self (set__history []) ;;
         match api_key with
         | Some key => modify_self (set__api_client (Some key)) ;; emit UpsertGuard
         | None => ret tt
         end) w0) by reflexivity.
    rewrite Hinit in *. clear Hinit.
    unfold bind at 1 in Hok. unfold bind at 1.
    destruct (_fill_validator_map get_validator str_of w0) as [w1 [[]|e]];
      [|discriminate].
    simpl in Hnodup.
    assert (Hmap : NoDup (map fst (_validator_map (self w1))))
      by (apply Hnodup; subst w0; simpl; destruct (self w); simpl; constructor).
    unfold validators_consistent.
    destruct api_key; unfold bind, _fill_validators, modify_self, emit, ret;
      simpl; destruct (self w1); simpl in *; split; auto.
  - intros Hw. split; [intros; apply Hadd; exact Hw|].
    split; [intros; apply Huse; exact Hw|].
    intros specs on. revert w Hw.
    change (keeps validators_consistent
              (use_many get_validator rail_output_type specs on)).
    unfold use_many. apply keeps_bind; [apply keeps_get_self|]. intros g.
    apply keeps_bind; [apply keeps_lift|]. intros ot.
    destruct (negb _); [apply keeps_raise|].
    apply keeps_for_each. intros v. apply Huse.
Qed.




(** *** Filling the validator map *)

Lemma fill_validator_map_loop (w : World) :
  _fill_validator_map get_validator str_of w
  = for_each (validators (self w)) (fill_reference get_validator str_of) w.
Proof. reflexivity. Qed.

Lemma covered_set_other (m : list (string * list Validator)) (k : string)
  (vs : list Validator) (r : ValidatorReference) :
  k <> ref_on r -> covered (dict_set m k vs) r <-> covered m r.
Proof.
  intros Hne. unfold covered. rewrite dict_get_set_ne by exact Hne. tauto.
Qed.

Lemma covered_set_extend (m : list (string * list Validator)) (k : string)
  (v : Validator) (r : ValidatorReference) :
  covered m r ->
  covered (dict_set m k (default [] (dict_get m k) ++ [v])%list) r.
Proof.
  intros Hr. destruct (String.eqb k (ref_on r)) eqn:E.
  - apply String.eqb_eq in E. subst k. unfold covered in *.
    rewrite dict_get_set_eq. simpl. rewrite List.filter_app.
    destruct (List.filter (ref_matches r) (default [] (dict_get m (ref_on r))));
      [congruence | discriminate].
  - apply String.eqb_neq in E. apply covered_set_other; assumption.
Qed.

(** One turn of the loop: nothing when the reference is covered, else one
    validator more under its path. *)
Lemma fill_reference_state (ref : ValidatorReference) (w : World) :
  (covered (_validator_map (self w)) ref ->
   fill_reference get_validator str_of ref w = (w, Ok tt))
  /\ (forall w', fill_reference get_validator str_of ref w = (w', Ok tt) ->
       validators (self w') = validators (self w)
       /\ (forall r, covered (_validator_map (self w)) r ->
                     covered (_validator_map (self w')) r)
       /\ ((forall v,
             get_validator
               (SpecString (reference_syntax str_of ref) (ref_on_fail ref)) = Ok v ->
             ref_matches ref v = true) ->
           covered (_validator_map (self w')) ref)).
Proof.
  unfold fill_reference, covered.
  change (bind get_self ?k w) with (k (self w) w). cbv beta zeta.
  destruct (List.filter (ref_matches ref)
              (default [] (dict_get (_validator_map (self w)) (ref_on ref))))
    as [|v0 vs0] eqn:Ef.
  - split; [congruence|]. intros w'. unfold bind, lift.
    destruct (get_validator _) as [v|e] eqn:Ev; simpl; [|discriminate].
    intros [= <-]. simpl. destruct (self w) eqn:Eg; simpl in *.
    split; [reflexivity|]. split.
    + intros r Hr. apply covered_set_extend. exact Hr.
    + intros Hfaithful. rewrite dict_get_set_eq. simpl.
      rewrite List.filter_app. simpl. rewrite (Hfaithful v eq_refl).
      destruct (List.filter _ _); discriminate.
  - split; [reflexivity|]. intros w' [= <-].
    split; [reflexivity|]. split; [auto|]. intros _. rewrite Ef. discriminate.
Qed.

(** X19: When what the registry builds for a reference matches the reference,
    [_fill_validator_map] leaves every reference of the guard with a
    matching validator under its path, and running it again changes
    nothing: no validator is added twice. *)
Theorem fill_validator_map_is_idempotent (w : World) :
  let w1 := fst (_fill_validator_map get_validator str_of w) in
  (forall ref v,
     In ref (validators (self w)) ->
     get_validator (SpecString (reference_syntax str_of ref) (ref_on_fail ref))
     = Ok v ->
     ref_matches ref v = true) ->
  snd (_fill_validator_map get_validator str_of w) = Ok tt ->
  (forall ref, In ref (validators (self w)) ->
               covered (_validator_map (self w1)) ref)
  /\ _fill_validator_map get_validator str_of w1 = (w1, Ok tt).
Proof.
  intros w1 Hfaithful Hok. subst w1. rewrite !fill_validator_map_loop in *.
  assert (Hloop : forall refs w0,
    (forall ref v, In ref refs ->
       get_validator (SpecString (reference_syntax str_of ref) (ref_on_fail ref))
       = Ok v -> ref_matches ref v = true) ->
    snd (for_each refs (fill_reference get_validator str_of) w0) = Ok tt ->
    let w' := fst (for_each refs (fill_reference get_validator str_of) w0) in
    validators (self w') = validators (self w0)
    /\ (forall r, covered (_validator_map (self w0)) r ->
                  covered (_validator_map (self w')) r)
    /\ (forall r, In r refs -> covered (_validator_map (self w')) r)).
  { induction refs as [|ref refs IH]; intros w0 Hf Hrun; simpl.
    - split; [reflexivity|]. split; [auto|]. intros r [].
    - simpl in Hrun. unfold bind in Hrun |- *.
      destruct (fill_reference get_validator str_of ref w0) as [w' [[]|e]] eqn:Estep;
        [|discriminate].
      destruct (fill_reference_state ref w0) as [_ Hstep].
      destruct (Hstep w' Estep) as (Hv & Hmono & Hcov).
      destruct (IH w' (fun r v Hr => Hf r v (or_intror Hr)) Hrun)
        as (Hv' & Hmono' & Hcov').
      split; [congruence|]. split; [auto|].
      intros r [<-|Hr]; [|auto].
      apply Hmono', Hcov. intros v. apply Hf. left. reflexivity. }
  assert (Hnoop : forall refs w0,
    (forall r, In r refs -> covered (_validator_map (self w0)) r) ->
    for_each refs (fill_reference get_validator str_of) w0 = (w0, Ok tt)).
  { induction refs as [|ref refs IH]; intros w0 Hcov; simpl; [reflexivity|].
    unfold bind.
    destruct (fill_reference_state ref w0) as [Hstep _].
    rewrite Hstep by (apply Hcov; left; reflexivity).
    apply IH. intros r Hr. apply Hcov. right. exact Hr. }
  destruct (Hloop (validators (self w)) w Hfaithful Hok) as (Hv & _ & Hcov).
  split; [exact Hcov|]. rewrite Hv. apply Hnoop. exact Hcov.
Qed.

Lemma set_validator_map_twice (m m' : list (string * list Validator))
  (g : Guard) :
  set__validator_map m' (set__validator_map m g) = set__validator_map m' g.
Proof. destruct g; reflexivity. Qed.

Lemma set_validator_map_same (g : Guard) :
  set__validator_map (_validator_map g) g = g.
Proof. destruct g; reflexivity. Qed.

(** The loop of [_fill_validator_map] changes the validator map only and
    calls no collaborator. *)
Lemma fill_validator_map_frame (refs : list ValidatorReference) (w : World) :
  let w' := fst (for_each refs (fill_reference get_validator str_of) w) in
  trace w' = trace w
  /\ self w' = set__validator_map (_validator_map (self w')) (self w).
Proof.
  revert w. induction refs as [|ref refs IH]; intros w; simpl.
  - split; [reflexivity|]. symmetry. apply set_validator_map_same.
  - unfold bind.
    destruct (fill_reference get_validator str_of ref w) as [w1 r] eqn:Estep.
    assert (Hstep : trace w1 = trace w
                    /\ self w1 = set__validator_map (_validator_map (self w1)) (self w)).
    { revert Estep. unfold fill_reference.
      change (bind get_self ?k w) with (k (self w) w). cbv beta zeta.
      destruct (List.filter _ _).
      - unfold bind, lift. destruct (get_validator _); simpl; intros [= <- <-];
          simpl; (split; [reflexivity|]); destruct (self w); reflexivity.
      - intros [= <- <-]. split; [reflexivity|].
        symmetry. apply set_validator_map_same. }
    destruct Hstep as [Ht Hs].
    destruct r as [[]|e]; simpl; [|auto].
    destruct (IH w1) as [Ht' Hs']. split; [congruence|].
    etransitivity; [exact Hs'|]. rewrite Hs. apply set_validator_map_twice.
Qed.

(** X20: [__init__] resolves the validators before it creates the API client:
    when it returns, the history is empty, the list of validators is what
    the map holds, and the guard was registered with the remote service
    once if an API key is set, not at all otherwise.  When a validator
    cannot be resolved it raises without creating the client or contacting
    the service, and the list of validators is left empty. *)
Theorem init_registers_after_validators (w : World)
  (refs : list ValidatorReference) (api_key : option string) :
  let r := __init__ get_validator str_of refs api_key w in
  let g := self (fst r) in
  (snd r = Ok tt ->
   _history g = []
   /\ validators g = refs
   /\ _validators g = concat (dict_values (_validator_map g))
   /\ _api_client g
      = match api_key with Some _ => api_key | None => _api_client (self w) end
   /\ trace (fst r)
      = (trace w ++ match api_key with Some _ => [UpsertGuard] | None => [] end)%list)
  /\ (forall e, snd r = Raise e ->
       _validators g = []
       /\ _api_client g = _api_client (self w)
       /\ _history g = _history (self w)
       /\ trace (fst r) = trace w).
Proof.
  intros r g. subst g r.
  set (w0 := {| self := set__validators []
                          (set__validator_map []
                             (set_validators refs (self w)));
                trace := trace w |}).
  assert (Hinit : __init__ get_validator str_of refs api_key w
    = (_fill_validator_map get_validator str_of ;;
       _fill_validators ;;
       modify_self (set__history []) ;;
       match api_key with
       | Some key => modify_self (set__api_client (Some key)) ;; emit UpsertGuard
       | None => ret tt
       end) w0) by reflexivity.
  rewrite Hinit. clear Hinit. unfold bind.
  destruct (fill_validator_map_frame (validators (self w0)) w0)
    as [Ht Hs].
  rewrite <- fill_validator_map_loop in Ht, Hs.
  destruct (_fill_validator_map get_validator str_of w0) as [w1 [[]|e]];
    simpl in Ht, Hs.
  - split; [intros _ | intros e' He'; exfalso; destruct api_key; discriminate He'].
    destruct api_key; unfold bind, _fill_validators, modify_self, emit, ret;
      simpl; rewrite Hs, Ht; subst w0; simpl;
      destruct (self w); simpl; rewrite ?app_nil_r; repeat split; reflexivity.
  - split; [intros He'; discriminate He'|]. intros e' _. simpl. rewrite Hs, Ht. subst w0. simpl.
    destruct (self w); simpl. repeat split; reflexivity.
Qed.

End Coverage.

(** ** The properties on examples *)

Example remote_before_asynchronous :
  map strategy_of (trace (fst (run_execute remote_call (world_of remote_guard))))
  = [Some Remote].
Proof. vm_compute. reflexivity. Qed.

Example asynchronous_before_streaming :
  map strategy_of (trace (fst (run_execute async_call (world_of string_guard))))
  = [Some Asynchronous].
Proof. vm_compute. reflexivity. Qed.

Example streaming_on_request :
  map strategy_of (trace (fst (run_execute stream_call (world_of string_guard))))
  = [Some Streaming].
Proof. vm_compute. reflexivity. Qed.

Example synchronous_by_default :
  map strategy_of (trace (fst (run_execute sync_call (world_of string_guard))))
  = [Some Synchronous].
Proof. vm_compute. reflexivity. Qed.

Example missing_keys_are_all_named :
  snd (run_execute sync_call (world_of keyed_guard))
  = Raise (ValueError "Missing required metadata keys: k1, k2").
Proof. vm_compute. reflexivity. Qed.

Example first_check_comes_first :
  snd (run_execute no_input_call (world_of keyed_guard))
  = Raise (RuntimeError "'llm_api' or 'llm_output' must be provided!").
Proof. vm_compute. reflexivity. Qed.

Example failed_round_does_not_pass :
  snd (run_execute sync_call (world_of string_guard))
  = Ok (Outcome {| raw_llm_output := PStr "toolong";
                   validated_output := PStr "toolong";
                   validation_passed := false;
                   error := None |}).
Proof. vm_compute. reflexivity. Qed.

Example configure_with_metrics_flag_raises :
  snd (configure rc_credentials (Some 5) None (Some true) (world_of string_guard))
  = Raise (UnboundLocalError "credentials").
Proof. vm_compute. reflexivity. Qed.

(** [names] is decided by [occurs]. *)
Lemma prefix_app (k post : string) : String.prefix k (k ++ post) = true.
Proof.
  induction k as [|c k IH]; [destruct post; reflexivity|].
  change (String.prefix (String c k) (String c (k ++ post)) = true).
  simpl. destruct (Ascii.ascii_dec c c); [exact IH | congruence].
Qed.

Lemma names_occurs (msg k : string) : names msg k -> occurs k msg = true.
Proof.
  intros (pre & post & ->). induction pre as [|c pre IH].
  - change (occurs k (k ++ post) = true).
    assert (Hp := prefix_app k post).
    destruct (k ++ post)%string; cbn [occurs]; rewrite Hp; reflexivity.
  - change (occurs k (String c (pre ++ k ++ post)) = true).
    cbn [occurs]. rewrite IH. apply orb_true_r.
Qed.


(** C3, as stated, fails on an invocation that lacks the required keys [k1]
    and [k2] and also supplies neither a target nor an output: the first
    check raises, and its message names neither key. *)
Lemma execute_names_missing_metadata_counterexample :
  In "k1"%string (required_metadata_keys needs_keys)
  /\ In needs_keys (_validators (self (world_of keyed_guard)))
  /\ metadata no_input_call = Some ∅
  /\ exists msg,
       snd (run_execute no_input_call (world_of keyed_guard))
       = Raise (RuntimeError msg)
       /\ ~ names msg "k1".
Proof.
  split; [simpl; auto|]. split; [simpl; auto|]. split; [reflexivity|].
  eexists. split; [vm_compute; reflexivity|].
  intros H. apply names_occurs in H. vm_compute in H. discriminate.
Qed.


Lemma execute_rejects_missing_inputs_witness :
  (exists msg,
     run_execute no_input_call (world_of string_guard)
     = (world_of string_guard, Raise (RuntimeError msg)))
  /\ (exists msg,
        run_execute no_prompt_call (world_of string_guard)
        = (world_of string_guard, Raise (RuntimeError msg))).
Proof.
  split.
  - apply (execute_rejects_missing_inputs openai_only api_enum as_is
             silent_service toolong_runner toolong_runner toolong_stream
             (world_of string_guard) no_input_call).
    left. split; reflexivity.
  - apply (execute_rejects_missing_inputs openai_only api_enum as_is
             silent_service toolong_runner toolong_runner toolong_stream
             (world_of string_guard) no_prompt_call).
    right. repeat split; try reflexivity. discriminate.
Defined.

Lemma execute_names_missing_metadata_witness :
  exists msg,
    run_execute sync_call (world_of keyed_guard)
    = (world_of keyed_guard, Raise (ValueError msg))
    /\ names msg "k1" /\ names msg "k2".
Proof.
  destruct (execute_names_missing_metadata openai_only api_enum as_is
              silent_service toolong_runner toolong_runner toolong_stream
              (world_of keyed_guard) sync_call ∅) as (msg & Hraise & Hnames).
  - reflexivity.
  - reflexivity.
  - exists needs_keys, "k1"%string. repeat split; simpl; auto.
  - exists msg. split; [exact Hraise|].
    split; apply (Hnames needs_keys); simpl; auto.
Defined.




Lemma validator_map_has_no_empty_entry_witness :
  no_empty_entry
    (_validator_map
       (self (fst (__init__ registry text_of (validators string_guard) None
                     (world_of string_guard)))))
  /\ no_empty_entry
       (_validator_map
          (self (fst (use registry (SpecInstance needs_keys) "output"
                        (world_of string_guard))))).
Proof.
  destruct (validator_map_has_no_empty_entry registry text_of str_rail
              (world_of string_guard)) as [Hinit Hkeep].
  split; [apply Hinit|].
  apply Hkeep. repeat constructor. discriminate.
Defined.

Lemma from_guard_history_is_pure_witness :
  (exists o,
     from_guard_history (InHistory 0)
       (fst (run_execute sync_call (world_of string_guard)))
     = (fst (run_execute sync_call (world_of string_guard)), Ok o)
     /\ from_guard_history
          (Detached {| call_inputs := None; iterations := [toolong_iteration] |})
          (world_of string_guard)
        = (world_of string_guard, Ok o))
  /\ exists o w1,
       _exec_sync toolong_runner toolong_stream [] (Some local_model) PNone
         (InHistory 0) PNone 2 (Some ∅) false (PStr "hi") PNone PNone ∅
         (world_of (set__history [empty_call] string_guard))
       = (w1, Ok (Outcome o))
       /\ from_guard_history (InHistory 0) w1 = (w1, Ok o).
Proof.
  split.
  - destruct (from_guard_history_is_pure toolong_runner toolong_stream
                (fst (run_execute sync_call (world_of string_guard)))
                (InHistory 0)) as [(o & Hrun & _ & Hlast) _].
    exists o. split; [exact Hrun|].
    apply Hlast. reflexivity.
  - destruct (from_guard_history_is_pure toolong_runner toolong_stream
                (world_of (set__history [empty_call] string_guard))
                (InHistory 0)) as [_ Hsync].
    destruct (Hsync [] (Some local_model) PNone 0%nat PNone 2 (Some ∅) false
                (PStr "hi") PNone PNone ∅ [toolong_iteration])
      as (o & Hrun & Hpure); [reflexivity | reflexivity |].
    exists o. eexists. split; [exact Hrun | exact Hpure].
Defined.

Lemma parse_without_msg_history_raises_witness :
  parse openai_only api_enum as_is silent_service toolong_runner toolong_runner
    toolong_stream (PStr "ok") [] None None None PNone None
    {[ "prompt" := PStr "hi" ]} (world_of string_guard)
  = (world_of string_guard, Raise (KeyError "msg_history")).
Proof.
  apply (parse_without_msg_history_raises openai_only api_enum as_is
           silent_service toolong_runner toolong_runner toolong_stream).
  reflexivity.
Defined.


(** ** The further properties on examples *)

Lemma call_requires_prompt_or_history_witness :
  exists msg,
    run_call local_model [] PNone None PNone PNone PNone None None ∅
      (world_of string_guard)
    = (world_of string_guard, Raise (RuntimeError msg)).
Proof.
  apply (call_requires_prompt_or_history openai_only api_enum as_is
           silent_service toolong_runner toolong_runner toolong_stream);
    reflexivity.
Defined.





Lemma parse_rejects_empty_output_witness :
  run_parse (PStr "") [] None None None PNone None parse_kwargs
    (world_of string_guard)
  = (world_of string_guard,
     Raise (RuntimeError "'llm_api' or 'llm_output' must be provided!")).
Proof.
  apply (parse_rejects_empty_output openai_only api_enum as_is silent_service
           toolong_runner toolong_runner toolong_stream);
    [reflexivity | eexists; reflexivity].
Defined.




Lemma no_client_no_remote_call_witness :
  upsert_guard (world_of string_guard)
  = (world_of string_guard,
     Raise (ValueError "Guard does not have an api client!"))
  /\ _call_server api_enum as_is answering_service [] (PStr "ok") None (Some 1)
       PNone None None None ∅ (world_of string_guard)
     = (world_of string_guard,
        Raise (ValueError "Guard does not have an api client!")).
Proof.
  destruct (no_client_no_remote_call openai_only api_enum as_is
              answering_service toolong_runner toolong_runner toolong_stream
              (world_of string_guard)) as (Hup & Hcall & _); [reflexivity|].
  split; [exact Hup | apply Hcall].
Defined.

Lemma invoke_always_raises_witness :
  invoke openai_only text_of api_enum as_is silent_service toolong_runner
    toolong_runner toolong_stream braces (PlainInput (PStr "ok"))
    (world_of string_guard)
  = (world_of string_guard, Raise (KeyError "msg_history"))
  /\ validate openai_only api_enum as_is silent_service toolong_runner
       toolong_runner toolong_stream (PStr "ok") [] None None None PNone None
       {[ "prompt" := PStr "hi" ]} (world_of string_guard)
     = (world_of string_guard, Raise (KeyError "msg_history")).
Proof.
  destruct (invoke_always_raises openai_only text_of api_enum as_is
              silent_service toolong_runner toolong_runner toolong_stream
              braces (world_of string_guard)) as (Hinvoke & Hvalidate & _).
  split; [apply Hinvoke | apply Hvalidate; reflexivity].
Defined.


Lemma use_appends_validator_witness :
  let w' := fst (use registry (SpecInstance needs_keys) "output"
                   (world_of string_guard)) in
  dict_get (_validator_map (self w')) "$" = Some [valid_length; needs_keys]
  /\ _validators (self w') = [valid_length; needs_keys].
Proof.
  destruct (use_appends_validator registry (world_of string_guard)
              (SpecInstance needs_keys) "output" needs_keys)
    as (_ & Hmap & _ & Hlist & _); [reflexivity | reflexivity |].
  split; [exact Hmap | exact Hlist].
Defined.

Lemma use_needs_string_guard_witness :
  fst (use registry (SpecInstance needs_keys) "output" (world_of list_guard))
  = world_of list_guard
  /\ exists e,
       snd (use registry (SpecInstance needs_keys) "output" (world_of list_guard))
       = Raise e.
Proof.
  apply (use_needs_string_guard registry (world_of list_guard)
           (SpecInstance needs_keys) "output").
  discriminate.
Defined.

Lemma validators_stay_consistent_witness :
  validators_consistent
    (self (fst (__init__ registry text_of (validators string_guard) None
                  (world_of string_guard))))
  /\ validators_consistent
       (self (fst (use_many registry str_rail
                     [SpecInstance needs_keys; SpecInstance valid_length]
                     "output" (world_of string_guard)))).
Proof.
  destruct (validators_stay_consistent registry text_of str_rail
              (world_of string_guard)) as [Hinit Hkeep].
  split.
  - apply Hinit. reflexivity.
  - apply Hkeep. split.
    + repeat constructor. intros H. inversion H.
    + apply Permutation_refl.
Defined.



Lemma fill_validator_map_is_idempotent_witness :
  let w1 := fst (_fill_validator_map registry text_of (world_of referenced_guard)) in
  covered (_validator_map (self w1)) lowercase_ref
  /\ _fill_validator_map registry text_of w1 = (w1, Ok tt).
Proof.
  destruct (fill_validator_map_is_idempotent registry text_of
              (world_of referenced_guard)) as [Hcov Hagain].
  - intros ref v [<-|[<-|[]]] [= <-]; reflexivity.
  - reflexivity.
  - split; [apply Hcov; left; reflexivity | exact Hagain].
Defined.

Lemma init_registers_after_validators_witness :
  trace (fst (__init__ registry text_of [lowercase_ref] (Some "key"%string)
                (world_of string_guard))) = [UpsertGuard]
  /\ _history (self (fst (__init__ registry text_of [lowercase_ref]
                            (Some "key"%string) (world_of string_guard)))) = [].
Proof.
  destruct (init_registers_after_validators registry text_of
              (world_of string_guard) [lowercase_ref] (Some "key"%string))
    as [Hok _].
  destruct Hok as (Hh & _ & _ & _ & Ht); [reflexivity|].
  split; [exact Ht | exact Hh].
Defined.

